(** * Prima Scholar: the excellence engine and the prediction cache

    A shallow embedding of [backend/models/excellence_engine.py],
    [backend/services/prediction_service.py] and of the persistence entry
    point [DatabaseManager.update_excellence_score] of
    [backend/databases/connection.py].

    Conventions of the embedding.
    - Python floats are idealised as exact rationals ([Q]); equalities between
      computed numbers are therefore stated with [==].  Python ints are [Z].
    - A student-data dict is a record whose fields already carry the default
      that the code passes to [dict.get]; a missing key and a key holding the
      default are not told apart (the defaults are all falsy, which is what
      the truthiness tests of the code look at).
    - A call that may raise is a value of [Outcome]; [try_except] is the
      [try: ... except Exception as e: ...] statement.
    - What the database, the clock and the helpers whose bodies are not part of
      the available source hand back during one call is an explicit input of
      the embedded function. *)

From Stdlib Require Import QArith Qminmax Qround Qabs Lqa Lia ZArith String List Sorted.
From stdpp Require Import base option gmap strings.

Open Scope Q_scope.

(** ** Python primitives *)

Module Py.

(** The result of evaluating a Python call: a value, or a raised exception
    carrying [str(e)]. *)
Inductive Outcome (A : Type) : Type :=
| Returned (a : A)
| Raised (message : string).
Arguments Returned {A} a.
Arguments Raised {A} message.

Definition bind {A B : Type} (c : Outcome A) (k : A -> Outcome B) : Outcome B :=
  match c with
  | Returned a => k a
  | Raised e => Raised e
  end.

(** [try: body  except Exception as e: handler(e)]; the handler receives
    [str(e)]. *)
Definition try_except {A : Type} (body : Outcome A) (handler : string -> Outcome A)
  : Outcome A :=
  match body with
  | Returned a => Returned a
  | Raised e => handler e
  end.

(** Truthiness of a list ([if xs:]). *)
Definition truthy {A : Type} (xs : list A) : bool :=
  match xs with [] => false | _ :: _ => true end.

(** [datetime.now()] and [date] values; [isoformat()] renders them injectively
    and is left out. *)
Definition datetime : Type := Z.
Definition date : Type := Z.

(** [sum(xs)] over floats: a left-to-right accumulation starting at 0. *)
Definition sum (xs : list Q) : Q := fold_left Qplus xs 0.

(** [x / y] on floats raises [ZeroDivisionError] when [y] is zero. *)
Definition div (x y : Q) : Outcome Q :=
  if Qeq_bool y 0 then Raised "float division by zero" else Returned (x / y).

(** The integer nearest to [q], ties going to the even one. *)
Definition nearest_integer (q : Q) : Z :=
  let below := Qfloor q in
  match (q - inject_Z below ?= 1 # 2)%Q with
  | Lt => below
  | Gt => (below + 1)%Z
  | Eq => if Z.even below then below else (below + 1)%Z
  end.

(** [round(x, ndigits)]: the multiple of [10 ** -ndigits] nearest to [x], ties
    going to the even multiple. *)
Definition round (x : Q) (ndigits : nat) : Q :=
  let scale := inject_Z (10 ^ Z.of_nat ndigits) in
  inject_Z (nearest_integer (x * scale)) / scale.

End Py.

Import Py.

(** [Outcome] is used through stdpp's monad notation [x ← c; k]. *)
#[global] Instance outcome_ret : MRet Outcome := fun A a => Returned a.
#[global] Instance outcome_bind : MBind Outcome := fun A B k c => Py.bind c k.

(** ** numpy *)

Module Np.

Definition Qsum (xs : list Q) : Q := fold_right Qplus 0 xs.

Definition mean (xs : list Q) : Q := Qsum xs / inject_Z (Z.of_nat (length xs)).

(** [np.arange(n)]: 0, 1, ..., n-1. *)
Definition arange (n : nat) : list Q :=
  map (fun i => inject_Z (Z.of_nat i)) (seq 0 n).

(** The sum of the squared residuals of the line [y = a + b * x]. *)
Definition squared_error (x y : list Q) (b a : Q) : Q :=
  Qsum (zip_with (fun xi yi => (yi - (a + b * xi)) * (yi - (a + b * xi))) x y).

(** [np.polyfit(x, y, 1)]: the coefficients [(slope, intercept)], highest power
    first, of the line that minimises [squared_error] (lemma
    [polyfit1_least_squares] below), written with the deviations from the
    means. *)
Definition polyfit1 (x y : list Q) : Q * Q :=
  let mx := mean x in
  let my := mean y in
  let sxy := Qsum (zip_with (fun xi yi => (xi - mx) * (yi - my)) x y) in
  let sxx := Qsum (map (fun xi => (xi - mx) * (xi - mx)) x) in
  let slope := sxy / sxx in
  (slope, my - slope * mx).

End Np.

(** ** Data model *)

(** One element of [student_data['mentorship_sessions']]. *)
Record Session : Type := {
  session_quality_score : Q;          (* default 0 *)
  query_sophistication : string       (* default 'basic' *)
}.

(** The student-data dict read by the engine. *)
Record StudentData : Type := {
  current_gpa : Q;                          (* default 0.0 *)
  honors_courses : Z;                       (* default 0 *)
  gpa_trend : string;                       (* default 'stable' *)
  academic_achievements : list string;      (* default [] *)
  research_projects : Z;                    (* default 0 *)
  publications : Z;                         (* default 0 *)
  presentations : Z;                        (* default 0 *)
  mentorship_sessions : list Session;       (* default [] *)
  theoretical_frameworks_engaged : Z;       (* default 0 *)
  elite_tier_documents : Z;                 (* default 0 *)
  leadership_roles : list string;           (* default [] *)
  service_hours : Q;                        (* default 0 *)
  leadership_impact_score : Q;              (* default 0 *)
  original_projects : Z;                    (* default 0 *)
  creative_works : Z;                       (* default 0 *)
  innovative_approaches_suggested : Z;      (* default 0 *)
  academic_level : string;                  (* default 'undergraduate' *)
  profile_age_days : Z                      (* default 0 *)
}.

(** Well-formed student data: a grade point average, counts, hours and quality
    scores are not negative. *)
Record valid_metrics (sd : StudentData) : Prop := {
  valid_gpa : 0 <= current_gpa sd;
  valid_honors : (0 <= honors_courses sd)%Z;
  valid_research : (0 <= research_projects sd)%Z;
  valid_publications : (0 <= publications sd)%Z;
  valid_presentations : (0 <= presentations sd)%Z;
  valid_sessions :
    Forall (fun s => 0 <= session_quality_score s) (mentorship_sessions sd);
  valid_frameworks : (0 <= theoretical_frameworks_engaged sd)%Z;
  valid_documents : (0 <= elite_tier_documents sd)%Z;
  valid_service : 0 <= service_hours sd;
  valid_impact : 0 <= leadership_impact_score sd;
  valid_original : (0 <= original_projects sd)%Z;
  valid_creative : (0 <= creative_works sd)%Z;
  valid_innovative : (0 <= innovative_approaches_suggested sd)%Z
}.

Record DistinctionRequirement : Type := {
  gpa_min : Q;
  excellence_score_min : Q;
  additional_requirements : list string;
  weight_gpa : Q;            (* weight_factors['gpa'] *)
  weight_excellence : Q      (* weight_factors['excellence'] *)
}.

Record ExcellenceFactors : Type := {
  academic_performance : Q;
  research_engagement : Q;
  critical_thinking : Q;
  leadership_service : Q;
  innovation_creativity : Q
}.

(** A row of [SELECT excellence_score, trajectory_date FROM excellence_trajectory]. *)
Module TrajectoryRow.
Record t : Type := {
  excellence_score : Q;
  trajectory_date : date
}.
End TrajectoryRow.

(** The dict returned by [calculate_excellence_score]: the score dict, or
    [{'error': error, 'score': 0}]. *)
Module ScoreDict.
Inductive t : Type :=
| Score (excellence_score : Q) (factors : ExcellenceFactors)
        (level_multiplier : Q) (calculated_at : datetime)
| Error (error : string).

(** [d.get('excellence_score')] *)
Definition get_excellence_score (d : t) : option Q :=
  match d with
  | Score s _ _ _ => Some s
  | Error _ => None
  end.

(** [d.get('factors')] *)
Definition get_factors (d : t) : option ExcellenceFactors :=
  match d with
  | Score _ f _ _ => Some f
  | Error _ => None
  end.

(** [d.get('score')] *)
Definition get_score (d : t) : option Z :=
  match d with
  | Score _ _ _ _ => None
  | Error _ => Some 0%Z
  end.

(** [list(d)], the keys of the dict. *)
Definition keys (d : t) : list string :=
  match d with
  | Score _ _ _ _ =>
      ["excellence_score"; "factors"; "level_multiplier"; "calculated_at"]%string
  | Error _ => ["error"; "score"]%string
  end.
End ScoreDict.

(** The dict built by [predict_distinction_probability] on success. *)
Module PredictionResult.
Record t : Type := {
  distinction : string;
  probability : Q;
  confidence : Q;
  current_excellence_score : Q;
  required_excellence_score : Q;
  current_gpa : Q;
  required_gpa : Q;
  gap : Q;
  improvement_factors : list string;
  estimated_achievement_date : option date;
  trajectory_factor : Q;
  key_factors : list string;
  calculated_at : datetime
}.

(** The same dict with another value under ['calculated_at']. *)
Definition with_calculated_at (now : datetime) (r : t) : t :=
  {| distinction := distinction r; probability := probability r;
     confidence := confidence r;
     current_excellence_score := current_excellence_score r;
     required_excellence_score := required_excellence_score r;
     current_gpa := current_gpa r; required_gpa := required_gpa r;
     gap := gap r; improvement_factors := improvement_factors r;
     estimated_achievement_date := estimated_achievement_date r;
     trajectory_factor := trajectory_factor r; key_factors := key_factors r;
     calculated_at := now |}.
End PredictionResult.

(** What [predict_distinction_probability] returns: the prediction dict or
    [{'error': error}]. *)
Module PredictionDict.
Inductive t : Type :=
| Prediction (result : PredictionResult.t)
| Error (error : string).
End PredictionDict.

(** The collaborators of the engine during one request: the database behind
    [self.db] and the private helpers of [ExcellenceEngine] whose bodies are not
    part of the available source.  Each is the function from the arguments of
    the call to what the call does, for the frozen state of the world in which
    the request runs. *)
Record World : Type := {
  (** [self._get_comprehensive_student_data(student_id)]: the student-data
      dict, [None] (or an empty dict) when there is none. *)
  _get_comprehensive_student_data : string -> Outcome (option StudentData);
  (** [self._update_excellence_score_in_db(student_id, score, factors)], the
      persistence write of the score.  [Returned true]: written.
      [Returned false]: the write failed and the failure was swallowed on the
      way, as [DatabaseManager.update_excellence_score] does.  [Raised]: the
      failure reaches the caller. *)
  _update_excellence_score_in_db :
    string -> Q -> ExcellenceFactors -> Outcome bool;
  (** [self.db.execute_query(query, {'student_id': student_id})] for the
      trajectory query: the rows, most recent first, at most ten. *)
  execute_trajectory_query : string -> Outcome (list TrajectoryRow.t);
  _identify_improvement_factors : StudentData -> string -> Outcome (list string);
  _estimate_achievement_timeline :
    string -> string -> Q -> Q -> Outcome (option date);
  _get_key_success_factors : string -> Outcome (list string);
  _store_prediction_in_db : string -> PredictionResult.t -> Outcome unit
}.

(** ** The database manager *)

Module DatabaseManager.

(** [update_excellence_score]: the UPDATE of the profile, then
    [json.dumps(factors)] and the INSERT of the trajectory point, all inside
    one [try]; the arguments are what [execute_update], [json.dumps] and
    [execute_insert] do when called. *)
Definition update_excellence_score (execute_update : Outcome Z)
    (dumps_factors : Outcome string) (execute_insert : string -> Outcome Z)
  : Outcome bool :=
  try_except
    (_ ← execute_update;
     factors ← dumps_factors;
     _ ← execute_insert factors;
     Returned true)
    (fun e => Returned false).

End DatabaseManager.

(** ** The excellence engine *)

Module ExcellenceEngine.

(** [self.distinction_requirements] *)
Definition distinction_requirements : gmap string DistinctionRequirement :=
  list_to_map [
    ("Dean_List"%string,
      {| gpa_min := 7 # 2; excellence_score_min := 75;
         additional_requirements := ["top_15_percent"; "full_time_enrollment"]%string;
         weight_gpa := 6 # 10; weight_excellence := 4 # 10 |});
    ("Magna_Cum_Laude"%string,
      {| gpa_min := 37 # 10; excellence_score_min := 85;
         additional_requirements := ["cumulative_gpa"; "credit_hours_minimum"]%string;
         weight_gpa := 5 # 10; weight_excellence := 5 # 10 |});
    ("Summa_Cum_Laude"%string,
      {| gpa_min := 39 # 10; excellence_score_min := 95;
         additional_requirements := ["thesis_defense"; "faculty_recommendation"]%string;
         weight_gpa := 4 # 10; weight_excellence := 6 # 10 |});
    ("Phi_Beta_Kappa"%string,
      {| gpa_min := 38 # 10; excellence_score_min := 90;
         additional_requirements := ["liberal_arts_focus"; "character_assessment"]%string;
         weight_gpa := 45 # 100; weight_excellence := 55 # 100 |});
    ("Rhodes_Scholar"%string,
      {| gpa_min := 39 # 10; excellence_score_min := 98;
         additional_requirements :=
           ["leadership_evidence"; "athletic_achievement"; "service_commitment"]%string;
         weight_gpa := 3 # 10; weight_excellence := 7 # 10 |});
    ("Fulbright_Scholar"%string,
      {| gpa_min := 38 # 10; excellence_score_min := 92;
         additional_requirements :=
           ["research_proposal"; "language_proficiency"; "cultural_sensitivity"]%string;
         weight_gpa := 35 # 100; weight_excellence := 65 # 100 |})
  ].

(** [self.factor_weights], one weight per field of [ExcellenceFactors]. *)
Definition factor_weights : ExcellenceFactors := {|
  academic_performance := 40 # 100;
  research_engagement := 25 # 100;
  critical_thinking := 20 # 100;
  leadership_service := 10 # 100;
  innovation_creativity := 5 # 100 |}.

Definition _calculate_academic_performance (student_data : StudentData) : Q :=
  let gpa := current_gpa student_data in
  let base_score := Qmin ((gpa / 4) * 100) 100 in
  let bonus := 0%Z in
  let bonus :=
    if (0 <? honors_courses student_data)%Z
    then (bonus + Z.min (honors_courses student_data * 2) 10)%Z
    else bonus in
  let bonus :=
    if String.eqb (gpa_trend student_data) "improving" then (bonus + 5)%Z
    else if String.eqb (gpa_trend student_data) "declining" then (bonus - 5)%Z
    else bonus in
  let achievements := academic_achievements student_data in
  let bonus := (bonus + Z.min (Z.of_nat (length achievements) * 3) 15)%Z in
  Qmin (base_score + inject_Z bonus) 100.

Definition _calculate_research_engagement (student_data : StudentData) : Q :=
  let base_score := 20%Z in
  let research_projects := research_projects student_data in
  let base_score := (base_score + Z.min (research_projects * 15) 40)%Z in
  let publications := publications student_data in
  let presentations := presentations student_data in
  let base_score :=
    (base_score + Z.min (publications * 20 + presentations * 10) 30)%Z in
  let sessions_data := mentorship_sessions student_data in
  let base_score :=
    match sessions_data with
    | [] => inject_Z base_score
    | _ :: _ =>
        let avg_quality :=
          Py.sum (map session_quality_score sessions_data)
          / inject_Z (Z.of_nat (length sessions_data)) in
        inject_Z base_score + Qmin (avg_quality * 10) 10
    end in
  Qmin base_score 100.

(** The local table [sophistication_scores] of
    [_calculate_critical_thinking_score]. *)
Definition sophistication_scores : gmap string Z :=
  list_to_map [("basic"%string, 10%Z); ("intermediate"%string, 25%Z);
               ("advanced"%string, 40%Z); ("scholar"%string, 60%Z)].

Definition _calculate_critical_thinking_score (student_data : StudentData) : Q :=
  let base_score := 40 in
  let sessions := mentorship_sessions student_data in
  let base_score :=
    match sessions with
    | [] => base_score
    | _ :: _ =>
        let avg_sophistication :=
          fold_left
            (fun acc session =>
               let sophistication_level := query_sophistication session in
               (acc + default 10 (sophistication_scores !! sophistication_level))%Z)
            sessions 0%Z in
        let avg_sophistication :=
          inject_Z avg_sophistication / inject_Z (Z.of_nat (length sessions)) in
        Qmax base_score avg_sophistication
    end in
  let frameworks_used := theoretical_frameworks_engaged student_data in
  let base_score := base_score + inject_Z (Z.min (frameworks_used * 3) 20) in
  let complex_docs := elite_tier_documents student_data in
  let base_score := base_score + inject_Z (Z.min (complex_docs * 5) 15) in
  Qmin base_score 100.

Definition _calculate_leadership_score (student_data : StudentData) : Q :=
  let base_score := 10 in
  let leadership_roles := leadership_roles student_data in
  let base_score :=
    base_score + inject_Z (Z.min (Z.of_nat (length leadership_roles) * 15) 45) in
  let service_hours := service_hours student_data in
  let base_score := base_score + Qmin (service_hours / 10) 25 in
  let leadership_impact := leadership_impact_score student_data in
  let base_score := base_score + Qmin leadership_impact 20 in
  Qmin base_score 100.

Definition _calculate_innovation_score (student_data : StudentData) : Q :=
  let base_score := 30%Z in
  let original_projects := original_projects student_data in
  let base_score := (base_score + Z.min (original_projects * 10) 30)%Z in
  let creative_works := creative_works student_data in
  let base_score := (base_score + Z.min (creative_works * 15) 25)%Z in
  let innovative_solutions := innovative_approaches_suggested student_data in
  let base_score := (base_score + Z.min (innovative_solutions * 2) 15)%Z in
  inject_Z (Z.min base_score 100).

Definition _calculate_excellence_factors (student_data : StudentData)
  : ExcellenceFactors :=
  let academic_score := _calculate_academic_performance student_data in
  let research_score := _calculate_research_engagement student_data in
  let thinking_score := _calculate_critical_thinking_score student_data in
  let leadership_score := _calculate_leadership_score student_data in
  let innovation_score := _calculate_innovation_score student_data in
  {| academic_performance := academic_score;
     research_engagement := research_score;
     critical_thinking := thinking_score;
     leadership_service := leadership_score;
     innovation_creativity := innovation_score |}.

(** Modelled from the spec: [_get_level_multiplier], whose body is not part of
    the available source.  "Level multiplier by academic_level: undergraduate
    1.0, graduate 1.3, doctoral 1.6, postdoc 2.0 (unknown level defaults to
    1.0)". *)
Definition level_multipliers : gmap string Q :=
  list_to_map [("undergraduate"%string, 1); ("graduate"%string, 13 # 10);
               ("doctoral"%string, 16 # 10); ("postdoc"%string, 2)].

Definition _get_level_multiplier (academic_level : string) : Q :=
  default 1 (level_multipliers !! academic_level).

(** The local [total_score] of [calculate_excellence_score]. *)
Definition weighted_total (factors : ExcellenceFactors) : Q :=
  academic_performance factors * academic_performance factor_weights +
  research_engagement factors * research_engagement factor_weights +
  critical_thinking factors * critical_thinking factor_weights +
  leadership_service factors * leadership_service factor_weights +
  innovation_creativity factors * innovation_creativity factor_weights.

(** The local [final_score] of [calculate_excellence_score]. *)
Definition final_score (student_data : StudentData) : Q :=
  let factors := _calculate_excellence_factors student_data in
  let total_score := weighted_total factors in
  let level_multiplier := _get_level_multiplier (academic_level student_data) in
  Qmin (total_score * level_multiplier) 100.

Definition calculate_excellence_score (w : World) (now : datetime)
    (student_id : string) (student_data : option StudentData)
  : Outcome ScoreDict.t :=
  try_except
    (student_data ←
       match student_data with
       | Some sd => Returned (Some sd)
       | None => _get_comprehensive_student_data w student_id
       end;
     match student_data with
     | None => Returned (ScoreDict.Error "Student data not found")
     | Some student_data =>
         let factors := _calculate_excellence_factors student_data in
         let total_score := weighted_total factors in
         let level_multiplier :=
           _get_level_multiplier (academic_level student_data) in
         let final_score := Qmin (total_score * level_multiplier) 100 in
         _ ← _update_excellence_score_in_db w student_id final_score factors;
         Returned
           (ScoreDict.Score
              (Py.round final_score 2)
              {| academic_performance := Py.round (academic_performance factors) 2;
                 research_engagement := Py.round (research_engagement factors) 2;
                 critical_thinking := Py.round (critical_thinking factors) 2;
                 leadership_service := Py.round (leadership_service factors) 2;
                 innovation_creativity :=
                   Py.round (innovation_creativity factors) 2 |}
              level_multiplier
              now)
     end)
    (fun e => Returned (ScoreDict.Error e)).

Definition _analyze_improvement_trajectory (w : World) (student_id : string)
  : Outcome Q :=
  try_except
    (trajectory_data ← execute_trajectory_query w student_id;
     if (length trajectory_data <? 2)%nat then Returned (1 # 2)
     else
       let scores := map TrajectoryRow.excellence_score trajectory_data in
       let scores := rev scores in
       let x := Np.arange (length scores) in
       let coeffs := Np.polyfit1 x scores in
       let slope := fst coeffs in
       let trajectory_factor := Qmax 0 (Qmin 1 ((1 # 2) + slope / 20)) in
       Returned trajectory_factor)
    (fun e => Returned (1 # 2)).

(** The list [data_fields] of [_calculate_prediction_confidence], each field
    with the truth value of [student_data.get(field)]. *)
Definition data_fields : list (StudentData -> bool) := [
  (fun sd => negb (Qeq_bool (current_gpa sd) 0));
  (fun sd => Py.truthy (mentorship_sessions sd));
  (fun sd => Py.truthy (academic_achievements sd));
  (fun sd => negb (research_projects sd =? 0)%Z);
  (fun sd => Py.truthy (leadership_roles sd))
].

Definition _calculate_prediction_confidence (student_data : StudentData)
    (distinction : string) : Q :=
  let base_confidence := 70 in
  let completeness :=
    inject_Z (Z.of_nat (length (List.filter (fun field => field student_data)
                                            data_fields)))
    / inject_Z (Z.of_nat (length data_fields)) in
  let base_confidence := base_confidence + completeness * 20 in
  let sessions_count := length (mentorship_sessions student_data) in
  let base_confidence :=
    if (10 <=? sessions_count)%nat then base_confidence + 10
    else if (5 <=? sessions_count)%nat then base_confidence + 5
    else base_confidence in
  let base_confidence :=
    if (90 <=? profile_age_days student_data)%Z then base_confidence + 5
    else base_confidence in
  Qmin base_confidence 95.

Definition predict_distinction_probability (w : World) (now : datetime)
    (student_id distinction : string) : Outcome PredictionDict.t :=
  try_except
    (match distinction_requirements !! distinction with
     | None =>
         Returned (PredictionDict.Error ("Unknown distinction: " ++ distinction))
     | Some requirement =>
         student_data ← _get_comprehensive_student_data w student_id;
         match student_data with
         | None => Returned (PredictionDict.Error "Student data not found")
         | Some student_data =>
             (* the timestamp of the inner score dict is never read *)
             excellence_data ←
               calculate_excellence_score w now student_id (Some student_data);
             let current_excellence :=
               default 0 (ScoreDict.get_excellence_score excellence_data) in
             let current_gpa := current_gpa student_data in
             gpa_factor ←
               (if Qlt_le_dec 0 (gpa_min requirement)
                then ratio ← Py.div current_gpa (gpa_min requirement);
                     Returned (Qmin ratio 1)
                else Returned 1);
             excellence_ratio ←
               Py.div current_excellence (excellence_score_min requirement);
             let excellence_factor := Qmin excellence_ratio 1 in
             let base_probability :=
               (gpa_factor * weight_gpa requirement +
                excellence_factor * weight_excellence requirement) * 100 in
             trajectory_factor ← _analyze_improvement_trajectory w student_id;
             let trajectory_adjusted :=
               base_probability * ((7 # 10) + trajectory_factor * (3 # 10)) in
             let confidence :=
               _calculate_prediction_confidence student_data distinction in
             let final_probability := Qmin trajectory_adjusted 95 in
             improvement_factors ←
               _identify_improvement_factors w student_data distinction;
             estimated_date ←
               _estimate_achievement_timeline w student_id distinction
                 current_excellence (excellence_score_min requirement);
             key_factors ← _get_key_success_factors w distinction;
             let prediction_result := {|
               PredictionResult.distinction := distinction;
               PredictionResult.probability := Py.round final_probability 1;
               PredictionResult.confidence := Py.round confidence 1;
               PredictionResult.current_excellence_score := current_excellence;
               PredictionResult.required_excellence_score :=
                 excellence_score_min requirement;
               PredictionResult.current_gpa := current_gpa;
               PredictionResult.required_gpa := gpa_min requirement;
               PredictionResult.gap :=
                 Qmax 0 (excellence_score_min requirement - current_excellence);
               PredictionResult.improvement_factors := improvement_factors;
               PredictionResult.estimated_achievement_date := estimated_date;
               PredictionResult.trajectory_factor := Py.round trajectory_factor 2;
               PredictionResult.key_factors := key_factors;
               PredictionResult.calculated_at := now |} in
             _ ← _store_prediction_in_db w student_id prediction_result;
             Returned (PredictionDict.Prediction prediction_result)
         end
     end)
    (fun e => Returned (PredictionDict.Error e)).

End ExcellenceEngine.

(** ** The prediction service *)

(** The Redis server as [redis_client] sees it. *)
Module Redis.

Record t : Type := {
  reachable : bool;
  (** key ↦ (time to live in seconds, value) *)
  entries : gmap string (Z * string)
}.

(** [redis_client.get(name)] *)
Definition get (server : t) (name : string) : Outcome (option string) :=
  if reachable server then Returned (snd <$> entries server !! name)
  else Raised "Error connecting to Redis".

(** [redis_client.setex(name, time, value)]: the server after the call.  The
    server rejects a time to live that is not positive.  There is no clock in
    this model: an entry that was stored is read before it expires. *)
Definition setex (server : t) (name : string) (time : Z) (value : string)
  : Outcome t :=
  if reachable server
  then
    if (time <=? 0)%Z
    then Raised "invalid expire time in 'setex' command"
    else Returned {| reachable := true;
                     entries := <[name := (time, value)]> (entries server) |}
  else Raised "Error connecting to Redis".

End Redis.

Module PredictionService.

(** The attributes of a [PredictionService] that the cache reads;
    [redis_client] is only set when [__init__] could build the client. *)
Record t : Type := {
  cache_enabled : bool;
  redis_client : option Redis.t
}.

(** [self.redis_client] *)
Definition get_redis_client (self : t) : Outcome Redis.t :=
  match redis_client self with
  | Some client => Returned client
  | None => Raised "'PredictionService' object has no attribute 'redis_client'"
  end.

(** The cache part of [__init__]; [from_url] is what [redis.from_url] does. *)
Definition __init__ (redis_url : option string)
    (from_url : string -> Outcome Redis.t) : t :=
  match redis_url with
  | Some url =>
      match from_url url with
      | Returned client => {| cache_enabled := true; redis_client := Some client |}
      | Raised e => {| cache_enabled := false; redis_client := None |}
      end
  | None => {| cache_enabled := false; redis_client := None |}
  end.

Definition cache_key (student_id distinction : string) : string :=
  "prediction:" ++ student_id ++ ":" ++ distinction.

Section Json.

(** [json.dumps] and [json.loads] on prediction dicts. *)
Variable dumps : PredictionDict.t -> Outcome string.
Variable loads : string -> Outcome PredictionDict.t.

(** The body of the [try] of [get_cached_prediction]. *)
Definition lookup_attempt (self : t) (student_id distinction : string)
  : Outcome (option PredictionDict.t) :=
  let cache_key := cache_key student_id distinction in
  client ← get_redis_client self;
  cached_data ← Redis.get client cache_key;
  match cached_data with
  | Some data =>
      if negb (String.eqb data "")
      then prediction ← loads data; Returned (Some prediction)
      else Returned None
  | None => Returned None
  end.

Definition get_cached_prediction (self : t) (student_id distinction : string)
  : Outcome (option PredictionDict.t) :=
  if negb (cache_enabled self) then Returned None
  else
    try_except
      (lookup_attempt self student_id distinction)
      (fun e => Returned None).

(** The body of the [try] of [cache_prediction]: the server after [setex]. *)
Definition store_attempt (self : t) (student_id distinction : string)
    (prediction : PredictionDict.t) (ttl : Z) : Outcome Redis.t :=
  let cache_key := cache_key student_id distinction in
  client ← get_redis_client self;
  payload ← dumps prediction;
  Redis.setex client cache_key ttl payload.

(** [cache_prediction] returns nothing; the result pairs the outcome of the
    call with the service after it. *)
Definition cache_prediction (self : t) (student_id distinction : string)
    (prediction : PredictionDict.t) (ttl : Z) : Outcome unit * t :=
  if negb (cache_enabled self) then (Returned tt, self)
  else
    match store_attempt self student_id distinction prediction ttl with
    | Returned server =>
        (Returned tt,
         {| cache_enabled := cache_enabled self; redis_client := Some server |})
    | Raised e => (Returned tt, self)
    end.

(** [test_cache] *)
Definition test_cache (self : t) : bool :=
  if negb (cache_enabled self) then false
  else
    match redis_client self with
    | Some client => Redis.reachable client
    | None => false
    end.

End Json.

(** The cache backend cannot be used: caching is switched off, there is no
    client, or the server does not answer. *)
Definition backend_unavailable (self : t) : bool :=
  negb (cache_enabled self) ||
  match redis_client self with
  | Some client => negb (Redis.reachable client)
  | None => true
  end.

End PredictionService.


(** ** Worlds in which one collaborator is pinned down *)

(** The world [w] in which the persistence write of the score ends in
    [outcome]. *)
Definition with_score_write (outcome : Outcome bool) (w : World) : World := {|
  _get_comprehensive_student_data := _get_comprehensive_student_data w;
  _update_excellence_score_in_db := fun _ _ _ => outcome;
  execute_trajectory_query := execute_trajectory_query w;
  _identify_improvement_factors := _identify_improvement_factors w;
  _estimate_achievement_timeline := _estimate_achievement_timeline w;
  _get_key_success_factors := _get_key_success_factors w;
  _store_prediction_in_db := _store_prediction_in_db w |}.

(** The world [w] in which the trajectory query ends in [outcome]. *)
Definition with_trajectory (outcome : Outcome (list TrajectoryRow.t)) (w : World)
  : World := {|
  _get_comprehensive_student_data := _get_comprehensive_student_data w;
  _update_excellence_score_in_db := _update_excellence_score_in_db w;
  execute_trajectory_query := fun _ => outcome;
  _identify_improvement_factors := _identify_improvement_factors w;
  _estimate_achievement_timeline := _estimate_achievement_timeline w;
  _get_key_success_factors := _get_key_success_factors w;
  _store_prediction_in_db := _store_prediction_in_db w |}.

(** The scores of the rows of the trajectory query, put back in chronological
    order, earliest first. *)
Definition chronological (rows : list TrajectoryRow.t) : list Q :=
  rev (map TrajectoryRow.excellence_score rows).

(** ** The trajectory analyzer as the specification words it *)

Module Spec.

(** [clamp(v, lo, hi)] *)
Definition clamp (v lo hi : Q) : Q :=
  if Qlt_le_dec v lo then lo
  else if Qlt_le_dec hi v then hi
  else v.

(** The (index, score) pairs of a chronologically ordered history, the first
    index being [i]. *)
Fixpoint indexed_from (i : nat) (scores : list Q) : list (Q * Q) :=
  match scores with
  | [] => []
  | y :: scores => (inject_Z (Z.of_nat i), y) :: indexed_from (S i) scores
  end.

(** "b = (nΣxy − ΣxΣy) / (nΣx² − (Σx)²)" *)
Definition ols_slope (points : list (Q * Q)) : Q :=
  let n := inject_Z (Z.of_nat (length points)) in
  let sum_x := Np.Qsum (map fst points) in
  let sum_y := Np.Qsum (map snd points) in
  let sum_xy := Np.Qsum (map (fun p => fst p * snd p) points) in
  let sum_xx := Np.Qsum (map (fun p => fst p * fst p) points) in
  (n * sum_xy - sum_x * sum_y) / (n * sum_xx - sum_x * sum_x).

(** "fewer than 2 points → return 0.5 ... Otherwise ... momentum =
    clamp(0.5 + b/20, 0, 1)" *)
Definition momentum (history : list Q) : Q :=
  if (length history <? 2)%nat then 1 # 2
  else clamp ((1 # 2) + ols_slope (indexed_from 0 history) / 20) 0 1.

End Spec.

(** ** Sums used to reason about the regression *)

Module Sums.

(** The number of points, as a rational. *)
Definition count (xs : list Q) : Q := inject_Z (Z.of_nat (length xs)).

(** Σ xᵢ·yᵢ *)
Definition dot (x y : list Q) : Q := Np.Qsum (zip_with Qmult x y).

(** n·Σxy − Σx·Σy *)
Definition cross_moment (x y : list Q) : Q :=
  count x * dot x y - Np.Qsum x * Np.Qsum y.

(** Σ (xᵢ − a)·(yᵢ − b) *)
Definition centered_dot (a b : Q) (x y : list Q) : Q :=
  Np.Qsum (zip_with (fun xi yi => (xi - a) * (yi - b)) x y).

(** Every later point lies, relative to every earlier one, in the direction
    given by the sign of [s]: [s·(xⱼ − xᵢ)·(yⱼ − yᵢ) > 0] for [i < j]. *)
Fixpoint concordant (s : Q) (x y : list Q) : Prop :=
  match x, y with
  | a :: x', b :: y' =>
      Forall2 (fun xi yi => 0 < s * ((xi - a) * (yi - b))) x' y' /\
      concordant s x' y'
  | _, _ => True
  end.

(** [i, i+1, ..., i+n-1] *)
Definition arange_from (i n : nat) : list Q :=
  map (fun k => inject_Z (Z.of_nat k)) (seq i n).

End Sums.

(** ** The score as the specification words it *)

Module ScoreSpec.

(** "score = min(100, Σ(factor·weight) · level_multiplier)", with the weights
    0.40, 0.25, 0.20, 0.10 and 0.05. *)
Definition excellence_score (factors : ExcellenceFactors) (level_multiplier : Q)
  : Q :=
  Qmin 100
    ((academic_performance factors * (40 # 100)
      + research_engagement factors * (25 # 100)
      + critical_thinking factors * (20 # 100)
      + leadership_service factors * (10 # 100)
      + innovation_creativity factors * (5 # 100)) * level_multiplier).

End ScoreSpec.

(** ** The dicts built by the engine *)

(** The ['factors'] entry of the score dict. *)
Definition rounded_factors (factors : ExcellenceFactors) : ExcellenceFactors := {|
  academic_performance := Py.round (academic_performance factors) 2;
  research_engagement := Py.round (research_engagement factors) 2;
  critical_thinking := Py.round (critical_thinking factors) 2;
  leadership_service := Py.round (leadership_service factors) 2;
  innovation_creativity := Py.round (innovation_creativity factors) 2 |}.

(** The score dict that [calculate_excellence_score] builds for
    [student_data] at the clock reading [now]. *)
Definition score_dict (student_data : StudentData) (now : datetime) : ScoreDict.t :=
  ScoreDict.Score
    (Py.round (ExcellenceEngine.final_score student_data) 2)
    (rounded_factors (ExcellenceEngine._calculate_excellence_factors student_data))
    (ExcellenceEngine._get_level_multiplier (academic_level student_data))
    now.

(** The local [gpa_factor] of [predict_distinction_probability]. *)
Definition gpa_factor_of (requirement : DistinctionRequirement) (current_gpa : Q)
  : Q :=
  if Qlt_le_dec 0 (gpa_min requirement)
  then Qmin (current_gpa / gpa_min requirement) 1
  else 1.

(** The local [final_probability] of [predict_distinction_probability]. *)
Definition probability_of (requirement : DistinctionRequirement)
    (current_gpa current_excellence trajectory_factor : Q) : Q :=
  let gpa_factor := gpa_factor_of requirement current_gpa in
  let excellence_factor :=
    Qmin (current_excellence / excellence_score_min requirement) 1 in
  let base_probability :=
    (gpa_factor * weight_gpa requirement +
     excellence_factor * weight_excellence requirement) * 100 in
  let trajectory_adjusted :=
    base_probability * ((7 # 10) + trajectory_factor * (3 # 10)) in
  Qmin trajectory_adjusted 95.

(** The dict [prediction_result] that [predict_distinction_probability] builds
    from the values it has gathered. *)
Definition prediction_dict (distinction : string)
    (requirement : DistinctionRequirement) (student_data : StudentData)
    (current_excellence trajectory_factor : Q)
    (improvement_factors : list string) (estimated_date : option date)
    (key_factors : list string) (now : datetime) : PredictionResult.t := {|
  PredictionResult.distinction := distinction;
  PredictionResult.probability :=
    Py.round (probability_of requirement (current_gpa student_data)
                current_excellence trajectory_factor) 1;
  PredictionResult.confidence :=
    Py.round
      (ExcellenceEngine._calculate_prediction_confidence student_data distinction) 1;
  PredictionResult.current_excellence_score := current_excellence;
  PredictionResult.required_excellence_score := excellence_score_min requirement;
  PredictionResult.current_gpa := current_gpa student_data;
  PredictionResult.required_gpa := gpa_min requirement;
  PredictionResult.gap :=
    Qmax 0 (excellence_score_min requirement - current_excellence);
  PredictionResult.improvement_factors := improvement_factors;
  PredictionResult.estimated_achievement_date := estimated_date;
  PredictionResult.trajectory_factor := Py.round trajectory_factor 2;
  PredictionResult.key_factors := key_factors;
  PredictionResult.calculated_at := now |}.

(** The persistence write has failed unless it reports success. *)
Definition persistence_failed (outcome : Outcome bool) : bool :=
  match outcome with
  | Returned true => false
  | Returned false => true
  | Raised _ => true
  end.

(** ** The value of the trajectory factor *)

(** What [_analyze_improvement_trajectory] computes from the scores of the
    rows, put in chronological order, when the query succeeds. *)
Definition trajectory_of_scores (scores : list Q) : Q :=
  if (length scores <? 2)%nat then 1 # 2
  else Qmax 0 (Qmin 1 ((1 # 2)
         + fst (Np.polyfit1 (Np.arange (length scores)) scores) / 20)).

(** ** Concrete inputs *)

Module Examples.

(** A student with three mentorship sessions and nothing else on record but a
    grade point average. *)
Definition three_sessions : StudentData := {|
  current_gpa := 35 # 10; honors_courses := 0; gpa_trend := "stable";
  academic_achievements := []; research_projects := 0; publications := 0;
  presentations := 0;
  mentorship_sessions := [
    {| session_quality_score := 4; query_sophistication := "scholar" |};
    {| session_quality_score := 4; query_sophistication := "scholar" |};
    {| session_quality_score := 4; query_sophistication := "advanced" |} ];
  theoretical_frameworks_engaged := 0; elite_tier_documents := 0;
  leadership_roles := []; service_hours := 0; leadership_impact_score := 0;
  original_projects := 0; creative_works := 0;
  innovative_approaches_suggested := 0; academic_level := "undergraduate";
  profile_age_days := 0 |}.

(** [{'current_gpa': 0.0, 'gpa_trend': 'declining'}] *)
Definition declining : StudentData := {|
  current_gpa := 0; honors_courses := 0; gpa_trend := "declining";
  academic_achievements := []; research_projects := 0; publications := 0;
  presentations := 0; mentorship_sessions := [];
  theoretical_frameworks_engaged := 0; elite_tier_documents := 0;
  leadership_roles := []; service_hours := 0; leadership_impact_score := 0;
  original_projects := 0; creative_works := 0;
  innovative_approaches_suggested := 0; academic_level := "undergraduate";
  profile_age_days := 0 |}.

(** The rows that the trajectory query returns, most recent first, for the
    scores of consecutive days given earliest first. *)
Definition rows_of (scores : list Q) : list TrajectoryRow.t :=
  rev (imap (fun day score =>
               {| TrajectoryRow.excellence_score := score;
                  TrajectoryRow.trajectory_date := Z.of_nat day |}) scores).

(** The histories 60, 65, 70, 75, 80 and 80, 75, 70, 65, 60. *)
Definition rising : list TrajectoryRow.t := rows_of [60; 65; 70; 75; 80].
Definition falling : list TrajectoryRow.t := rows_of [80; 75; 70; 65; 60].

(** A world in which [three_sessions] is the student on record, the history
    is [rising] and every collaborator succeeds. *)
Definition quiet : World := {|
  _get_comprehensive_student_data := fun _ => Returned (Some three_sessions);
  _update_excellence_score_in_db := fun _ _ _ => Returned true;
  execute_trajectory_query := fun _ => Returned rising;
  _identify_improvement_factors := fun _ _ => Returned [];
  _estimate_achievement_timeline := fun _ _ _ _ => Returned None;
  _get_key_success_factors := fun _ => Returned [];
  _store_prediction_in_db := fun _ _ => Returned tt |}.

(** A service whose Redis server does not answer. *)
Definition redis_down : PredictionService.t := {|
  PredictionService.cache_enabled := true;
  PredictionService.redis_client :=
    Some {| Redis.reachable := false; Redis.entries := ∅ |} |}.

(** A JSON codec that fails on every input. *)
Definition failing_dumps (prediction : PredictionDict.t) : Outcome string :=
  Raised "Object of type datetime is not JSON serializable".
Definition failing_loads (data : string) : Outcome PredictionDict.t :=
  Raised "Expecting value: line 1 column 1 (char 0)".

End Examples.

(** ** Proof automation *)

(** Replace one [Qmin] or [Qmax] by a fresh variable together with the facts
    that determine it. *)
Ltac forget_min a b :=
  let m := fresh "m" in
  pose proof (Q.le_min_l a b); pose proof (Q.le_min_r a b);
  pose proof (Q.min_spec a b);
  generalize dependent (Qmin a b); intros m **.

Ltac forget_max a b :=
  let m := fresh "m" in
  pose proof (Q.le_max_l a b); pose proof (Q.le_max_r a b);
  pose proof (Q.max_spec a b);
  generalize dependent (Qmax a b); intros m **.

Ltac forget_minmax :=
  match goal with
  | |- context [Qmin ?a ?b] => forget_min a b
  | |- context [Qmax ?a ?b] => forget_max a b
  | _ : context [Qmin ?a ?b] |- _ => forget_min a b
  | _ : context [Qmax ?a ?b] |- _ => forget_max a b
  end.

(** [lra] on [Q] has no division: turn the divisions by a literal into
    multiplications. *)
Ltac literal_divisions :=
  unfold Qdiv in *;
  repeat match goal with
    | |- context [Qinv (Qmake ?n ?d)] =>
        let v := eval compute in (Qinv (Qmake n d)) in
        change (Qinv (Qmake n d)) with v in *
    | H : context [Qinv (Qmake ?n ?d)] |- _ =>
        let v := eval compute in (Qinv (Qmake n d)) in
        change (Qinv (Qmake n d)) with v in *
    end.

Ltac minmax_lra := literal_divisions; repeat forget_minmax; intuition lra.


(** ** Variations of one input *)

(** The student data [sd] with another value under ['current_gpa']. *)
Definition with_gpa (gpa : Q) (sd : StudentData) : StudentData := {|
  current_gpa := gpa;
  honors_courses := honors_courses sd;
  gpa_trend := gpa_trend sd;
  academic_achievements := academic_achievements sd;
  research_projects := research_projects sd;
  publications := publications sd;
  presentations := presentations sd;
  mentorship_sessions := mentorship_sessions sd;
  theoretical_frameworks_engaged := theoretical_frameworks_engaged sd;
  elite_tier_documents := elite_tier_documents sd;
  leadership_roles := leadership_roles sd;
  service_hours := service_hours sd;
  leadership_impact_score := leadership_impact_score sd;
  original_projects := original_projects sd;
  creative_works := creative_works sd;
  innovative_approaches_suggested := innovative_approaches_suggested sd;
  academic_level := academic_level sd;
  profile_age_days := profile_age_days sd |}.

(** The world [w] in which storing a prediction ends in [outcome]. *)
Definition with_prediction_store (outcome : Outcome unit) (w : World) : World := {|
  _get_comprehensive_student_data := _get_comprehensive_student_data w;
  _update_excellence_score_in_db := _update_excellence_score_in_db w;
  execute_trajectory_query := execute_trajectory_query w;
  _identify_improvement_factors := _identify_improvement_factors w;
  _estimate_achievement_timeline := _estimate_achievement_timeline w;
  _get_key_success_factors := _get_key_success_factors w;
  _store_prediction_in_db := fun _ _ => outcome |}.

(** The world [w] in which the lookup of the student data ends in [outcome]. *)
Definition with_student_data (outcome : Outcome (option StudentData)) (w : World)
  : World := {|
  _get_comprehensive_student_data := fun _ => outcome;
  _update_excellence_score_in_db := _update_excellence_score_in_db w;
  execute_trajectory_query := execute_trajectory_query w;
  _identify_improvement_factors := _identify_improvement_factors w;
  _estimate_achievement_timeline := _estimate_achievement_timeline w;
  _get_key_success_factors := _get_key_success_factors w;
  _store_prediction_in_db := _store_prediction_in_db w |}.



(** Every factor of [f] is at most the same factor of [g]. *)
Definition factors_le (f g : ExcellenceFactors) : Prop :=
  academic_performance f <= academic_performance g /\
  research_engagement f <= research_engagement g /\
  critical_thinking f <= critical_thinking g /\
  leadership_service f <= leadership_service g /\
  innovation_creativity f <= innovation_creativity g.

(** The history [start, start + step, start + 2·step, ...] of [n] points,
    earliest first. *)
Definition linear_scores (start step : Q) (n : nat) : list Q :=
  map (fun i => start + step * inject_Z (Z.of_nat i)) (seq 0 n).

(** ** The excellence routes ([routes/excellence_api.py]) *)

Module ExcellenceApi.

(** The JSON bodies that the two routes build. *)
Inductive Body : Type :=
| Score (excellence_data : ScoreDict.t)
    (* jsonify(excellence_data) *)
| Profile (excellence_data : ScoreDict.t) (trajectory : list (date * Q))
          (student_id : string)
    (* {**excellence_data, 'trajectory': ..., 'student_id': ...} *)
| Updated (updated_profile : ScoreDict.t)
    (* {'success': True, 'updated_profile': ...} *)
| Error (error : string).
    (* {'error': ...} *)

(** A Flask response: the body and the status code. *)
Definition Response : Type := (Body * Z)%type.

(** The body of a POST request: [request.json], a dict that may hold
    ['student_id']. *)
Record RequestData : Type := { student_id : option string }.

(** [get_excellence_profile]; [trajectory_query] is what
    [current_app.db_manager.execute_query] does for the chart query (all the
    rows of the student, earliest first). *)
Definition get_excellence_profile (w : World) (now : datetime)
    (trajectory_query : Outcome (list TrajectoryRow.t)) (student_id : string)
  : Outcome Response :=
  try_except
    (excellence_data ←
       ExcellenceEngine.calculate_excellence_score w now student_id None;
     match excellence_data with
     | ScoreDict.Error _ => Returned (Score excellence_data, 400%Z)
     | ScoreDict.Score _ _ _ _ =>
         trajectory ← trajectory_query;
         let trajectory_data :=
           map (fun row => (TrajectoryRow.trajectory_date row,
                            TrajectoryRow.excellence_score row)) trajectory in
         Returned (Profile excellence_data trajectory_data student_id, 200%Z)
     end)
    (fun e => Returned (Error e, 500%Z)).

(** [update_excellence_profile]; [request_json] is what reading
    [request.json] does ([None] when the body is the JSON [null]). *)
Definition update_excellence_profile (w : World) (now : datetime)
    (request_json : Outcome (option RequestData)) : Outcome Response :=
  try_except
    (data ← request_json;
     student_id ←
       match data with
       | Some data => Returned (student_id data)
       | None => Raised "'NoneType' object has no attribute 'get'"
       end;
     match student_id with
     | None | Some EmptyString =>
         Returned (Error "student_id is required", 400%Z)
     | Some student_id =>
         excellence_data ←
           ExcellenceEngine.calculate_excellence_score w now student_id None;
         Returned (Updated excellence_data, 200%Z)
     end)
    (fun e => Returned (Error e, 500%Z)).

End ExcellenceApi.

(** ** The health check ([app.py]) *)

Module App.

(** [DatabaseManager.test_connection]; [select_one] is what executing
    [SELECT 1] and reading the first column of the first row does. *)
Definition test_connection (select_one : Outcome Z) : Outcome bool :=
  try_except
    (value ← select_one;
     Returned (value =? 1)%Z)
    (fun e => Returned false).

Inductive HealthBody : Type :=
| Healthy (database_connected cache_connected : bool)
| Unhealthy (error : string).

(** [health_check] *)
Definition health_check (select_one : Outcome Z) (service : PredictionService.t)
  : Outcome (HealthBody * Z) :=
  try_except
    (db_status ← test_connection select_one;
     let redis_status := PredictionService.test_cache service in
     Returned (Healthy db_status redis_status, 200%Z))
    (fun e => Returned (Unhealthy e, 500%Z)).

End App.

(** ** The mentorship service ([services/scholar_mentorship.py]) *)

Module ScholarMentorshipService.

(** The dict [mentorship_response], with the entries that the quality score
    reads. *)
Record MentorshipResponse : Type := {
  response : string;              (* default '' *)
  frameworks : list string;       (* default [] *)
  methodologies : list string;    (* default [] *)
  response_time : Q               (* default 0 *)
}.

(** The local table [sophistication_multipliers]. *)
Definition sophistication_multipliers : gmap string Q :=
  list_to_map [("basic"%string, 1); ("intermediate"%string, 12 # 10);
               ("advanced"%string, 15 # 10); ("scholar"%string, 2)].

Definition _calculate_session_quality (query : string)
    (mentorship_response : MentorshipResponse) (query_sophistication : string)
  : Outcome Q :=
  try_except
    (let base_score := 3 in
     let score :=
       base_score * default 1 (sophistication_multipliers !! query_sophistication) in
     let response_text := response mentorship_response in
     let frameworks := frameworks mentorship_response in
     let methodologies := methodologies mentorship_response in
     let score :=
       if (500 <? String.length response_text)%nat then score + (3 # 10) else score in
     let score :=
       if (800 <? String.length response_text)%nat then score + (2 # 10) else score in
     let score :=
       score + Qmin (4 # 10) (inject_Z (Z.of_nat (length frameworks)) * (1 # 10)) in
     let score :=
       score + Qmin (3 # 10) (inject_Z (Z.of_nat (length methodologies)) * (1 # 10)) in
     let response_time := response_time mentorship_response in
     let score :=
       if Qlt_le_dec 3000 response_time then score - (2 # 10) else score in
     Returned (Qmin 5 (Qmax 1 score)))
    (fun e => Returned 3).

(** One entry of the dict built by [_update_predictions_from_engagement]. *)
Record ProbabilityUpdate : Type := {
  previous : Q;
  updated : Q;
  increase : Q
}.

(** The local table [sophistication_impact]. *)
Definition sophistication_impact : gmap string Q :=
  list_to_map [("basic"%string, 5 # 10); ("intermediate"%string, 1);
               ("advanced"%string, 2); ("scholar"%string, 35 # 10)].

(** The body of the loop of [_update_predictions_from_engagement]. *)
Definition updated_prediction (probability_increase current_prob : Q)
  : ProbabilityUpdate :=
  let max_increase :=
    Qmin probability_increase ((100 - current_prob) * (1 # 10)) in
  let new_prob := Qmin 100 (current_prob + max_increase) in
  {| previous := current_prob;
     updated := new_prob;
     increase := new_prob - current_prob |}.

(** [_store_prediction_updates]: one statement per entry, all inside one
    [try]; [execute_query] is what the statement for an entry does. *)
Definition _store_prediction_updates
    (execute_query : string -> ProbabilityUpdate -> Outcome unit)
    (predictions : gmap string ProbabilityUpdate) : Outcome unit :=
  try_except
    (foldr (fun entry rest => _ ← execute_query entry.1 entry.2; rest)
           (Returned tt) (map_to_list predictions))
    (fun e => Returned tt).

(** [_update_predictions_from_engagement]; [query_sophistication] is the
    label that [_assess_query_sophistication] gives to the query and
    [predict_distinctions] is what [self.excellence_engine.predict_distinctions]
    does: the current probability of each distinction. *)
Definition _update_predictions_from_engagement
    (query_sophistication : string) (session_quality : Q)
    (predict_distinctions : Outcome (gmap string Q))
    (execute_query : string -> ProbabilityUpdate -> Outcome unit)
  : Outcome (gmap string ProbabilityUpdate) :=
  try_except
    (let base_impact := default 1 (sophistication_impact !! query_sophistication) in
     let quality_multiplier := session_quality / 4 in
     let probability_increase := base_impact * quality_multiplier in
     current_predictions ← predict_distinctions;
     let updated_predictions :=
       updated_prediction probability_increase <$> current_predictions in
     _ ← _store_prediction_updates execute_query updated_predictions;
     Returned updated_predictions)
    (fun e => Returned ∅).

(** The dict [student_profile], with the entries that the gap analysis
    reads. *)
Record StudentProfile : Type := {
  excellence_score : Q;              (* default 60 *)
  target_distinction : string        (* default 'Dean_List' *)
}.

(** What [distinction_requirements.get(target, {'excellence_score_min': 80})]
    evaluates to: an entry of the table, which is a dataclass instance, or the
    default, which is a dict. *)
Inductive TargetRequirements : Type :=
| Entry (requirement : DistinctionRequirement)
| Default (excellence_score_min : Q).

(** [target_requirements['excellence_score_min']]: a dataclass instance has no
    [__getitem__]. *)
Definition getitem_excellence_score_min (target_requirements : TargetRequirements)
  : Outcome Q :=
  match target_requirements with
  | Entry _ => Raised "'DistinctionRequirement' object is not subscriptable"
  | Default score => Returned score
  end.

Definition sophistication_levels : list string :=
  ["basic"; "intermediate"; "advanced"; "scholar"]%string.

(** [sophistication_levels.index(level)] *)
Fixpoint index_of (level : string) (levels : list string) : Outcome Z :=
  match levels with
  | [] => Raised ("'" ++ level ++ "' is not in list")
  | l :: levels =>
      if String.eqb l level then Returned 0%Z
      else i ← index_of level levels; Returned (i + 1)%Z
  end.

(** [levels[i]]: a negative index counts from the end. *)
Definition list_getitem (levels : list string) (i : Z) : Outcome string :=
  let n := Z.of_nat (length levels) in
  let j := if (i <? 0)%Z then (i + n)%Z else i in
  if ((j <? 0) || (n <=? j))%Z then Raised "list index out of range"
  else
    match nth_error levels (Z.to_nat j) with
    | Some level => Returned level
    | None => Raised "list index out of range"
    end.

(** The closing lines of the analysis, chosen by the size of the gap. *)
Inductive KeyAreas : Type :=
| SignificantResearch     (* gap > 20 *)
| EnhancedThinking        (* gap > 10 *)
| FineTuning.

(** The text returned by [_analyze_excellence_gap], by the values written
    into it. *)
Inductive GapAnalysis : Type :=
| Analysis (current_score : Q) (target_distinction : string)
           (target_score gap : Q) (query_sophistication : string)
           (target_sophistication : string) (sophistication_gap : Z)
           (areas : KeyAreas)
| Unavailable.   (* "Gap analysis unavailable" *)

Definition _analyze_excellence_gap (query : string) (student_profile : StudentProfile)
    (query_sophistication : string) : Outcome GapAnalysis :=
  try_except
    (let current_score := excellence_score student_profile in
     let target_distinction := target_distinction student_profile in
     let target_requirements :=
       match ExcellenceEngine.distinction_requirements !! target_distinction with
       | Some requirement => Entry requirement
       | None => Default 80
       end in
     target_score ← getitem_excellence_score_min target_requirements;
     let gap := Qmax 0 (target_score - current_score) in
     current_level_index ← index_of query_sophistication sophistication_levels;
     let target_level_index :=
       Z.min (Z.of_nat (length sophistication_levels) - 1)
             (Z.quot (Qnum (target_score / 25)) (Zpos (Qden (target_score / 25)))) in
     let sophistication_gap := Z.max 0 (target_level_index - current_level_index) in
     target_sophistication ← list_getitem sophistication_levels target_level_index;
     let areas :=
       if Qlt_le_dec 20 gap then SignificantResearch
       else if Qlt_le_dec 10 gap then EnhancedThinking
       else FineTuning in
     Returned (Analysis current_score target_distinction target_score gap
                 query_sophistication target_sophistication sophistication_gap
                 areas))
    (fun e => Returned Unavailable).

End ScholarMentorshipService.

(** ** More concrete inputs *)

Module MoreExamples.

(** A student whose record reaches the thresholds of the Dean's List. *)
Definition honors_student : StudentData := {|
  current_gpa := 39 # 10; honors_courses := 4; gpa_trend := "improving";
  academic_achievements := ["essay prize"; "dean's commendation"]%string;
  research_projects := 3; publications := 2; presentations := 1;
  mentorship_sessions := [];
  theoretical_frameworks_engaged := 7; elite_tier_documents := 3;
  leadership_roles := ["society president"; "tutor"; "editor"]%string;
  service_hours := 250; leadership_impact_score := 20;
  original_projects := 3; creative_works := 2;
  innovative_approaches_suggested := 8; academic_level := "undergraduate";
  profile_age_days := 120 |}.

(** A world in which [honors_student] is the student on record and every
    collaborator succeeds. *)
Definition honors_world : World :=
  with_student_data (Returned (Some honors_student)) Examples.quiet.

(** [{'current_gpa': -4.0}] *)
Definition negative_gpa : StudentData := {|
  current_gpa := -4; honors_courses := 0; gpa_trend := "stable";
  academic_achievements := []; research_projects := 0; publications := 0;
  presentations := 0; mentorship_sessions := [];
  theoretical_frameworks_engaged := 0; elite_tier_documents := 0;
  leadership_roles := []; service_hours := 0; leadership_impact_score := 0;
  original_projects := 0; creative_works := 0;
  innovative_approaches_suggested := 0; academic_level := "undergraduate";
  profile_age_days := 0 |}.

(** A world in which [negative_gpa] is the student on record and every
    collaborator succeeds. *)
Definition negative_gpa_world : World :=
  with_student_data (Returned (Some negative_gpa)) Examples.quiet.

(** [{'research_projects': -1, 'theoretical_frameworks_engaged': -1,
      'leadership_impact_score': -60, 'original_projects': -1}] *)
Definition negative_counts : StudentData := {|
  current_gpa := 0; honors_courses := 0; gpa_trend := "stable";
  academic_achievements := []; research_projects := -1; publications := 0;
  presentations := 0; mentorship_sessions := [];
  theoretical_frameworks_engaged := -1; elite_tier_documents := 0;
  leadership_roles := []; service_hours := 0; leadership_impact_score := -60;
  original_projects := -1; creative_works := 0;
  innovative_approaches_suggested := 0; academic_level := "undergraduate";
  profile_age_days := 0 |}.

(** The history 70, 75, 80, 85, 90: [Examples.rising] ten points higher. *)
Definition rising_higher : list TrajectoryRow.t :=
  Examples.rows_of [70; 75; 80; 85; 90].

End MoreExamples.

(** ** Colons in identifiers *)

From Stdlib Require Import Ascii.

(** Whether [":"] occurs in a string. *)
Fixpoint contains_colon (s : string) : bool :=
  match s with
  | EmptyString => false
  | String c rest => Ascii.eqb c ":"%char || contains_colon rest
  end.
(** ** Arithmetic helpers *)

Lemma inject_Z_between (a z b : Z) :
  (a <= z <= b)%Z -> inject_Z a <= inject_Z z /\ inject_Z z <= inject_Z b.
Proof. intros [Ha Hb]. split; rewrite <- Zle_Qle; assumption. Qed.

Lemma inject_Z_lower (a z : Z) : (a <= z)%Z -> inject_Z a <= inject_Z z.
Proof. now rewrite <- Zle_Qle. Qed.

Lemma sum_acc (xs : list Q) (acc : Q) :
  fold_left Qplus xs acc == acc + Np.Qsum xs.
Proof.
  revert acc. induction xs as [|x xs IH]; intros acc; simpl.
  - ring.
  - rewrite IH. ring.
Qed.

Lemma Qsum_nonneg (xs : list Q) : Forall (fun x => 0 <= x) xs -> 0 <= Np.Qsum xs.
Proof.
  induction 1 as [|x xs Hx _ IH]; simpl; [lra|lra].
Qed.

Lemma py_sum_nonneg (xs : list Q) : Forall (fun x => 0 <= x) xs -> 0 <= Py.sum xs.
Proof.
  intros H. unfold Py.sum. rewrite sum_acc. pose proof (Qsum_nonneg xs H). lra.
Qed.

(** ** Bounds on the factors *)

Section FactorBounds.

Import ExcellenceEngine.

Lemma academic_bounds sd :
  valid_metrics sd ->
  -5 <= _calculate_academic_performance sd /\ _calculate_academic_performance sd <= 100.
Proof.
  intros V. unfold _calculate_academic_performance.
  destruct V as [Hg Hh _ _ _ _ _ _ _ _ _ _ _].
  set (bonus := (_ + Z.min _ 15)%Z).
  assert (Hb : (-5 <= bonus)%Z).
  { subst bonus.
    destruct (0 <? honors_courses sd)%Z;
      destruct (String.eqb (gpa_trend sd) "improving");
      destruct (String.eqb (gpa_trend sd) "declining"); lia. }
  apply inject_Z_lower in Hb. change (inject_Z (-5)) with (-5) in Hb.
  clearbody bonus. minmax_lra.
Qed.

Lemma research_bounds sd :
  valid_metrics sd ->
  20 <= _calculate_research_engagement sd /\
  _calculate_research_engagement sd <= 100.
Proof.
  intros V. unfold _calculate_research_engagement.
  pose proof (valid_research sd V). pose proof (valid_publications sd V).
  pose proof (valid_presentations sd V). pose proof (valid_sessions sd V) as Hs.
  set (base := (20 + _ + _)%Z).
  assert (Hb : (20 <= base)%Z) by (subst base; lia).
  apply inject_Z_lower in Hb. change (inject_Z 20) with 20 in Hb. clearbody base.
  destruct (mentorship_sessions sd) as [|s l] eqn:E.
  - minmax_lra.
  - rewrite <- E in *.
    set (avg := Py.sum _ / _).
    assert (0 <= avg).
    { subst avg. apply Qle_shift_div_l.
      - rewrite E. change 0 with (inject_Z 0). rewrite <- Zlt_Qlt. simpl. lia.
      - rewrite Qmult_0_l. apply py_sum_nonneg.
        rewrite Forall_map. exact Hs. }
    clearbody avg. minmax_lra.
Qed.

Lemma critical_thinking_bounds sd :
  valid_metrics sd ->
  40 <= _calculate_critical_thinking_score sd /\
  _calculate_critical_thinking_score sd <= 100.
Proof.
  intros V. unfold _calculate_critical_thinking_score.
  pose proof (valid_frameworks sd V). pose proof (valid_documents sd V).
  set (f := Z.min (_ * 3) 20). set (d := Z.min (_ * 5) 15).
  assert (Hf : (0 <= f)%Z) by (subst f; lia).
  assert (Hd : (0 <= d)%Z) by (subst d; lia).
  apply inject_Z_lower in Hf, Hd. change (inject_Z 0) with 0 in Hf, Hd.
  clearbody f d.
  destruct (mentorship_sessions sd) as [|s l].
  - minmax_lra.
  - set (avg := inject_Z _ / _). clearbody avg. minmax_lra.
Qed.

Lemma leadership_bounds sd :
  valid_metrics sd ->
  10 <= _calculate_leadership_score sd /\ _calculate_leadership_score sd <= 100.
Proof.
  intros V. unfold _calculate_leadership_score.
  pose proof (valid_service sd V). pose proof (valid_impact sd V).
  set (r := Z.min _ 45).
  assert (Hr : (0 <= r)%Z) by (subst r; lia).
  apply inject_Z_lower in Hr. change (inject_Z 0) with 0 in Hr. clearbody r.
  minmax_lra.
Qed.

Lemma innovation_bounds sd :
  valid_metrics sd ->
  30 <= _calculate_innovation_score sd /\ _calculate_innovation_score sd <= 100.
Proof.
  intros V. unfold _calculate_innovation_score.
  pose proof (valid_original sd V). pose proof (valid_creative sd V).
  pose proof (valid_innovative sd V).
  change 30 with (inject_Z 30). change 100 with (inject_Z 100).
  apply inject_Z_between. lia.
Qed.

(** The upper bounds need no assumption on the data: every factor ends in
    [min(..., 100)]. *)
Lemma factors_at_most_100 sd :
  _calculate_academic_performance sd <= 100 /\
  _calculate_research_engagement sd <= 100 /\
  _calculate_critical_thinking_score sd <= 100 /\
  _calculate_leadership_score sd <= 100 /\
  _calculate_innovation_score sd <= 100.
Proof.
  repeat split.
  - apply Q.le_min_r.
  - apply Q.le_min_r.
  - apply Q.le_min_r.
  - apply Q.le_min_r.
  - unfold _calculate_innovation_score. change 100 with (inject_Z 100).
    rewrite <- Zle_Qle. lia.
Qed.

Lemma level_multiplier_cases level :
  let m := _get_level_multiplier level in
  m == 1 \/ m == 13 # 10 \/ m == 16 # 10 \/ m == 2.
Proof.
  unfold _get_level_multiplier, level_multipliers. simpl.
  repeat (rewrite lookup_insert; case_decide; [simpl; intuition reflexivity|]).
  rewrite lookup_empty. simpl. left. reflexivity.
Qed.

Lemma level_multiplier_bounds level :
  1 <= _get_level_multiplier level /\ _get_level_multiplier level <= 2.
Proof.
  pose proof (level_multiplier_cases level) as H. simpl in H.
  intuition lra.
Qed.

Lemma weighted_total_bounds sd :
  valid_metrics sd ->
  let total := weighted_total (_calculate_excellence_factors sd) in
  (27 # 2) <= total /\ total <= 100.
Proof.
  intros V. unfold weighted_total, _calculate_excellence_factors, factor_weights.
  simpl.
  pose proof (academic_bounds sd V). pose proof (research_bounds sd V).
  pose proof (critical_thinking_bounds sd V). pose proof (leadership_bounds sd V).
  pose proof (innovation_bounds sd V).
  lra.
Qed.

Lemma final_score_bounds sd :
  valid_metrics sd -> (27 # 2) <= final_score sd /\ final_score sd <= 100.
Proof.
  intros V. unfold final_score.
  pose proof (weighted_total_bounds sd V) as Ht. simpl in Ht.
  pose proof (level_multiplier_bounds (academic_level sd)) as Hm.
  set (t := weighted_total _) in *. set (m := _get_level_multiplier _) in *.
  clearbody t m.
  assert (t * 1 <= t * m) by (apply Qmult_le_l; lra).
  minmax_lra.
Qed.

End FactorBounds.

(** ** Rounding *)

Section Rounding.

Lemma nearest_integer_cases (q : Q) :
  Py.nearest_integer q = Qfloor q \/
  (Py.nearest_integer q = (Qfloor q + 1)%Z /\ (1 # 2) <= q - inject_Z (Qfloor q)).
Proof.
  unfold Py.nearest_integer.
  destruct (Qcompare_spec (q - inject_Z (Qfloor q)) (1 # 2)) as [E|L|G].
  - destruct (Z.even (Qfloor q)); [now left|right]. split; [reflexivity|].
    rewrite E. apply Qle_refl.
  - now left.
  - right. split; [reflexivity|]. now apply Qlt_le_weak.
Qed.

Lemma nearest_integer_ge (k : Z) (q : Q) :
  inject_Z k <= q -> (k <= Py.nearest_integer q)%Z.
Proof.
  intros H. apply Qfloor_resp_le in H. rewrite Qfloor_Z in H.
  destruct (nearest_integer_cases q) as [-> | [-> _]]; lia.
Qed.

Lemma nearest_integer_le (k : Z) (q : Q) :
  q <= inject_Z k -> (Py.nearest_integer q <= k)%Z.
Proof.
  intros H. pose proof (Qfloor_resp_le _ _ H) as Hf. rewrite Qfloor_Z in Hf.
  destruct (nearest_integer_cases q) as [-> | [-> Hhalf]]; [exact Hf|].
  destruct (Z.eq_dec (Qfloor q) k) as [E|NE]; [|lia].
  rewrite E in Hhalf. lra.
Qed.

Lemma scale_positive (ndigits : nat) : 0 < inject_Z (10 ^ Z.of_nat ndigits).
Proof.
  change 0 with (inject_Z 0). rewrite <- Zlt_Qlt. apply Z.pow_pos_nonneg; lia.
Qed.

(** Rounding keeps a value on the same side of an integer bound. *)
Lemma round_ge (k : Z) (x : Q) (ndigits : nat) :
  inject_Z k <= x -> inject_Z k <= Py.round x ndigits.
Proof.
  intros H. unfold Py.round.
  pose proof (scale_positive ndigits) as Hs.
  set (p := (10 ^ Z.of_nat ndigits)%Z) in *.
  apply Qle_shift_div_l; [exact Hs|].
  rewrite <- inject_Z_mult, <- Zle_Qle.
  apply nearest_integer_ge. rewrite inject_Z_mult.
  apply Qmult_le_compat_r; [exact H|now apply Qlt_le_weak].
Qed.

Lemma round_le (k : Z) (x : Q) (ndigits : nat) :
  x <= inject_Z k -> Py.round x ndigits <= inject_Z k.
Proof.
  intros H. unfold Py.round.
  pose proof (scale_positive ndigits) as Hs.
  set (p := (10 ^ Z.of_nat ndigits)%Z) in *.
  apply Qle_shift_div_r; [exact Hs|].
  rewrite <- inject_Z_mult, <- Zle_Qle.
  apply nearest_integer_le. rewrite inject_Z_mult.
  apply Qmult_le_compat_r; [exact H|now apply Qlt_le_weak].
Qed.

(** Rounding moves a value by at most half a unit of the last digit kept. *)
Lemma round_error (x : Q) (ndigits : nat) :
  Qabs (Py.round x ndigits - x) <= (1 # 2) / inject_Z (10 ^ Z.of_nat ndigits).
Proof.
  unfold Py.round.
  pose proof (scale_positive ndigits) as Hs.
  set (s := inject_Z (10 ^ Z.of_nat ndigits)) in *.
  assert (Hne : ~ s == 0) by lra.
  setoid_replace (inject_Z (Py.nearest_integer (x * s)) / s - x)
    with ((inject_Z (Py.nearest_integer (x * s)) - x * s) / s)
    using relation Qeq by (field; exact Hne).
  unfold Qdiv. rewrite Qabs_Qmult.
  rewrite (Qabs_pos (/ s)) by (apply Qlt_le_weak, Qinv_lt_0_compat, Hs).
  apply Qmult_le_compat_r; [|apply Qlt_le_weak, Qinv_lt_0_compat, Hs].
  set (q := x * s).
  pose proof (Qfloor_le q) as Hlo. pose proof (Qlt_floor q) as Hhi.
  rewrite inject_Z_plus in Hhi. change (inject_Z 1) with 1 in Hhi.
  apply Qabs_Qle_condition.
  unfold Py.nearest_integer.
  destruct (Qcompare_spec (q - inject_Z (Qfloor q)) (1 # 2)) as [E|L|G].
  - destruct (Z.even (Qfloor q)).
    + split; lra.
    + rewrite inject_Z_plus. change (inject_Z 1) with 1. split; lra.
  - split; lra.
  - rewrite inject_Z_plus. change (inject_Z 1) with 1. split; lra.
Qed.

End Rounding.

(** ** The least-squares line *)

Section Regression.

Import Sums.

Lemma count_cons (a : Q) (x : list Q) : count (a :: x) == 1 + count x.
Proof.
  unfold count. simpl length. rewrite Nat2Z.inj_succ, <- Z.add_1_l.
  rewrite inject_Z_plus. reflexivity.
Qed.

Lemma count_nonneg (x : list Q) : 0 <= count x.
Proof. unfold count. change 0 with (inject_Z 0). rewrite <- Zle_Qle. lia. Qed.

Lemma count_positive (x : list Q) : x <> [] -> 0 < count x.
Proof.
  intros H. unfold count. change 0 with (inject_Z 0). rewrite <- Zlt_Qlt.
  destruct x; [congruence|simpl; lia].
Qed.

Lemma centered_dot_expand (a b : Q) (x y : list Q) :
  length x = length y ->
  centered_dot a b x y ==
  dot x y - a * Np.Qsum y - b * Np.Qsum x + count x * a * b.
Proof.
  revert y. induction x as [|xi x IH]; intros [|yi y] Hlen; try discriminate.
  - unfold centered_dot, dot, count. simpl. ring.
  - injection Hlen as Hlen. specialize (IH y Hlen).
    rewrite count_cons. unfold centered_dot, dot in *. simpl.
    rewrite IH. ring.
Qed.

Lemma centered_square_expand (a : Q) (x : list Q) :
  Np.Qsum (map (fun xi => (xi - a) * (xi - a)) x) ==
  dot x x - 2 * a * Np.Qsum x + count x * a * a.
Proof.
  induction x as [|xi x IH].
  - unfold dot, count. simpl. ring.
  - rewrite count_cons. unfold dot in *. simpl. rewrite IH. ring.
Qed.

Lemma cross_moment_cons (a b : Q) (x y : list Q) :
  length x = length y ->
  cross_moment (a :: x) (b :: y) == cross_moment x y + centered_dot a b x y.
Proof.
  intros Hlen. rewrite (centered_dot_expand a b x y Hlen).
  unfold cross_moment. rewrite count_cons. unfold dot. simpl. ring.
Qed.

(** The slope returned by [polyfit1] is the quotient of the raw sums. *)
Lemma polyfit1_slope (x y : list Q) :
  length x = length y -> x <> [] -> ~ cross_moment x x == 0 ->
  fst (Np.polyfit1 x y) == cross_moment x y / cross_moment x x.
Proof.
  intros Hlen Hx Hd. unfold Np.polyfit1. cbn [fst].
  pose proof (count_positive x Hx) as Hn.
  fold (centered_dot (Np.mean x) (Np.mean y) x y).
  rewrite (centered_dot_expand _ _ x y Hlen), centered_square_expand.
  unfold Np.mean. rewrite <- Hlen. fold (count x).
  unfold cross_moment in *. field. split; [exact Hd|lra].
Qed.


Lemma centered_dot_sign (s a b : Q) (x y : list Q) :
  Forall2 (fun xi yi => 0 < s * ((xi - a) * (yi - b))) x y ->
  0 <= s * centered_dot a b x y /\ (x <> [] -> 0 < s * centered_dot a b x y).
Proof.
  unfold centered_dot.
  induction 1 as [|xi yi x y Hpos _ [IH _]]; simpl.
  - split; [lra|congruence].
  - split; [|intros _]; lra.
Qed.

(** The sign of [n·Σxy − Σx·Σy] for concordant points. *)
Lemma cross_moment_sign (s : Q) (x y : list Q) :
  length x = length y -> concordant s x y ->
  0 <= s * cross_moment x y /\
  ((2 <= length x)%nat -> 0 < s * cross_moment x y).
Proof.
  revert y. induction x as [|a x IH]; intros [|b y] Hlen Hc; try discriminate.
  - unfold cross_moment, dot, count. simpl. split; [lra|lia].
  - injection Hlen as Hlen. destruct Hc as [Hab Hc].
    destruct (IH y Hlen Hc) as [IH0 _].
    destruct (centered_dot_sign s a b x y Hab) as [Hc0 Hc1].
    rewrite (cross_moment_cons a b x y Hlen).
    split; [lra|]. intros Hlen2.
    assert (Hne : x <> []) by (destruct x; [simpl in Hlen2; lia|congruence]).
    specialize (Hc1 Hne). lra.
Qed.

Lemma arange_from_length (i n : nat) : length (arange_from i n) = n.
Proof. unfold arange_from. now rewrite length_map, length_seq. Qed.

Lemma arange_from_S (i n : nat) :
  arange_from i (S n) = inject_Z (Z.of_nat i) :: arange_from (S i) n.
Proof. reflexivity. Qed.

(** Later indices are larger. *)
Lemma arange_above (i k n : nat) :
  (i < k)%nat ->
  Forall (fun xi => 0 < xi - inject_Z (Z.of_nat i)) (arange_from k n).
Proof.
  intros Hik. unfold arange_from. rewrite Forall_map, List.Forall_forall.
  intros j Hj. apply in_seq in Hj.
  assert (inject_Z (Z.of_nat i) < inject_Z (Z.of_nat j)) by (rewrite <- Zlt_Qlt; lia).
  lra.
Qed.

Lemma Forall2_of_Forall (P R : Q -> Prop) (S : Q -> Q -> Prop) (x y : list Q) :
  length x = length y -> Forall P x -> Forall R y ->
  (forall xi yi, P xi -> R yi -> S xi yi) -> Forall2 S x y.
Proof.
  intros Hlen Hx. revert y Hlen.
  induction Hx as [|xi x Hxi _ IH]; intros [|yi y] Hlen Hy HS; try discriminate.
  - constructor.
  - injection Hlen as Hlen. inversion Hy; subst.
    constructor; [now apply HS|now apply IH].
Qed.

(** A history whose scores all move in the direction of [s] is concordant with
    its indices. *)
Lemma indices_concordant (s : Q) (i : nat) (scores : list Q) :
  StronglySorted (fun y y' => 0 < s * (y' - y)) scores ->
  concordant s (arange_from i (length scores)) scores.
Proof.
  intros Hs. revert i.
  induction Hs as [|b scores _ IH Hb]; intros i; [exact I|].
  simpl length. rewrite arange_from_S. split; [|apply IH].
  apply Forall2_of_Forall
    with (P := fun xi => 0 < xi - inject_Z (Z.of_nat i))
         (R := fun yi => 0 < s * (yi - b)).
  - apply arange_from_length.
  - apply arange_above. lia.
  - exact Hb.
  - intros xi yi Hx Hy.
    setoid_replace (s * ((xi - inject_Z (Z.of_nat i)) * (yi - b)))
      with ((xi - inject_Z (Z.of_nat i)) * (s * (yi - b)))
      using relation Qeq by ring.
    now apply Qmult_lt_0_compat.
Qed.

Lemma arange_concordant (i n : nat) :
  concordant 1 (arange_from i n) (arange_from i n).
Proof.
  revert i. induction n as [|n IH]; intros i; [exact I|].
  rewrite arange_from_S. split; [|apply IH].
  pose proof (arange_above i (S i) n (Nat.lt_succ_diag_r i)) as Ha.
  induction Ha as [|xi l Hxi _ IHl]; constructor; [|exact IHl].
  rewrite Qmult_1_l. now apply Qmult_lt_0_compat.
Qed.

(** The denominator of the slope is positive as soon as there are two points. *)
Lemma arange_variance_positive (n : nat) :
  (2 <= n)%nat -> 0 < cross_moment (arange_from 0 n) (arange_from 0 n).
Proof.
  intros Hn.
  destruct (cross_moment_sign 1 _ _ eq_refl (arange_concordant 0 n)) as [_ H].
  rewrite arange_from_length in H. specialize (H Hn). lra.
Qed.

End Regression.

(** ** [polyfit1] is the least-squares line *)

Section LeastSquares.

Import Sums.

Lemma squared_error_expand (x y : list Q) (b a : Q) :
  length x = length y ->
  Np.squared_error x y b a ==
  dot y y - 2 * a * Np.Qsum y - 2 * b * dot x y
  + count x * a * a + 2 * a * b * Np.Qsum x + b * b * dot x x.
Proof.
  revert y. induction x as [|xi x IH]; intros [|yi y] Hlen; try discriminate.
  - unfold Np.squared_error, dot, count. simpl. ring.
  - injection Hlen as Hlen. specialize (IH y Hlen).
    rewrite count_cons. unfold Np.squared_error, dot in *. simpl.
    rewrite IH. ring.
Qed.

(** The normal equations of the fitted line. *)
Lemma polyfit1_normal_equations (x y : list Q) :
  length x = length y -> x <> [] -> ~ cross_moment x x == 0 ->
  let '(b, a) := Np.polyfit1 x y in
  count x * a + b * Np.Qsum x == Np.Qsum y /\
  a * Np.Qsum x + b * dot x x == dot x y.
Proof.
  intros Hlen Hx Hd.
  pose proof (polyfit1_slope x y Hlen Hx Hd) as Hb.
  pose proof (count_positive x Hx) as Hn.
  unfold Np.polyfit1 in *. cbn [fst] in Hb.
  set (b := _ / _) in *. clearbody b.
  unfold Np.mean. rewrite <- Hlen. fold (count x).
  unfold cross_moment in *. split.
  - field. lra.
  - rewrite Hb. field. split; [exact Hd|lra].
Qed.

(** No line has a smaller sum of squared residuals than the one returned by
    [polyfit1]. *)
Lemma polyfit1_least_squares (x y : list Q) (b a : Q) :
  length x = length y -> 0 < cross_moment x x ->
  let '(b0, a0) := Np.polyfit1 x y in
  Np.squared_error x y b0 a0 <= Np.squared_error x y b a.
Proof.
  intros Hlen Hd.
  assert (Hx : x <> []).
  { intros ->. unfold cross_moment, dot, count in Hd. simpl in Hd. lra. }
  assert (Hd0 : ~ cross_moment x x == 0) by lra.
  pose proof (polyfit1_normal_equations x y Hlen Hx Hd0) as Hne.
  destruct (Np.polyfit1 x y) as [b0 a0]. destruct Hne as [H1 H2].
  pose proof (count_positive x Hx) as Hn.
  rewrite !squared_error_expand by exact Hlen.
  rewrite <- H1, <- H2. unfold cross_moment in Hd.
  set (n := count x) in *. set (sx := Np.Qsum x) in *. set (sxx := dot x x) in *.
  clearbody n sx sxx.
  assert (Hsq : 0 <= (n * (a - a0) + sx * (b - b0)) * (n * (a - a0) + sx * (b - b0))
                     + (n * sxx - sx * sx) * ((b - b0) * (b - b0))).
  { assert (Hsquare : forall t : Q, 0 <= t * t) by (intros t; nra).
    pose proof (Hsquare (n * (a - a0) + sx * (b - b0))).
    pose proof (Hsquare (b - b0)).
    assert (0 <= (n * sxx - sx * sx) * ((b - b0) * (b - b0)))
      by (apply Qmult_le_0_compat; lra).
    lra. }
  assert (Hq : 0 <= n * ((a - a0) * (a - a0)) + 2 * sx * ((a - a0) * (b - b0))
                    + sxx * ((b - b0) * (b - b0))).
  { apply (Qmult_le_l _ _ n Hn). 
    setoid_replace (n * 0) with 0 using relation Qeq by ring.
    setoid_replace (n * (n * ((a - a0) * (a - a0)) + 2 * sx * ((a - a0) * (b - b0))
                    + sxx * ((b - b0) * (b - b0))))
      with ((n * (a - a0) + sx * (b - b0)) * (n * (a - a0) + sx * (b - b0))
                     + (n * sxx - sx * sx) * ((b - b0) * (b - b0)))
      using relation Qeq by ring.
    exact Hsq. }
  apply Qle_minus_iff.
  setoid_replace
    (dot y y - 2 * a * (n * a0 + b0 * sx) - 2 * b * (a0 * sx + b0 * sxx) + n * a * a +
     2 * a * b * sx + b * b * sxx +
     - (dot y y - 2 * a0 * (n * a0 + b0 * sx) - 2 * b0 * (a0 * sx + b0 * sxx) +
        n * a0 * a0 + 2 * a0 * b0 * sx + b0 * b0 * sxx))
    with (n * ((a - a0) * (a - a0)) + 2 * sx * ((a - a0) * (b - b0))
                    + sxx * ((b - b0) * (b - b0)))
    using relation Qeq by ring.
  exact Hq.
Qed.

End LeastSquares.

(** ** The trajectory analyzer *)

Section Trajectory.

Import Sums ExcellenceEngine.

Lemma indexed_from_fst (i : nat) (scores : list Q) :
  map fst (Spec.indexed_from i scores) = arange_from i (length scores).
Proof.
  revert i. induction scores as [|y scores IH]; intros i; [reflexivity|].
  simpl. rewrite IH. reflexivity.
Qed.

Lemma indexed_from_snd (i : nat) (scores : list Q) :
  map snd (Spec.indexed_from i scores) = scores.
Proof.
  revert i. induction scores as [|y scores IH]; intros i; [reflexivity|].
  simpl. now rewrite IH.
Qed.

Lemma indexed_from_xy (i : nat) (scores : list Q) :
  map (fun p => fst p * snd p) (Spec.indexed_from i scores) =
  zip_with Qmult (arange_from i (length scores)) scores.
Proof.
  revert i. induction scores as [|y scores IH]; intros i; [reflexivity|].
  simpl. now rewrite IH.
Qed.

Lemma indexed_from_xx (i : nat) (scores : list Q) :
  map (fun p => fst p * fst p) (Spec.indexed_from i scores) =
  zip_with Qmult (arange_from i (length scores)) (arange_from i (length scores)).
Proof.
  revert i. induction scores as [|y scores IH]; intros i; [reflexivity|].
  simpl. now rewrite IH.
Qed.

Lemma indexed_from_length (i : nat) (scores : list Q) :
  length (Spec.indexed_from i scores) = length scores.
Proof.
  revert i. induction scores as [|y scores IH]; intros i; [reflexivity|].
  simpl. now rewrite IH.
Qed.

(** The slope of the specification, in terms of the sums of this file. *)
Lemma ols_slope_indexed (scores : list Q) :
  let x := arange_from 0 (length scores) in
  Spec.ols_slope (Spec.indexed_from 0 scores) =
  cross_moment x scores / cross_moment x x.
Proof.
  unfold Spec.ols_slope, cross_moment, dot, count.
  rewrite indexed_from_fst, indexed_from_snd, indexed_from_xy, indexed_from_xx.
  rewrite indexed_from_length, arange_from_length. reflexivity.
Qed.

(** On the indices 0..n-1 of two points or more, [polyfit1] returns the slope
    of the specification. *)
Lemma polyfit1_is_ols_slope (scores : list Q) :
  (2 <= length scores)%nat ->
  fst (Np.polyfit1 (Np.arange (length scores)) scores) ==
  Spec.ols_slope (Spec.indexed_from 0 scores).
Proof.
  intros Hn. rewrite ols_slope_indexed. cbv zeta.
  change (Np.arange (length scores)) with (arange_from 0 (length scores)).
  pose proof (arange_variance_positive (length scores) Hn) as Hd.
  apply polyfit1_slope.
  - apply arange_from_length.
  - destruct scores as [|y scores]; [simpl in Hn; lia|discriminate].
  - lra.
Qed.

Lemma clamp_unit (v : Q) : Qmax 0 (Qmin 1 v) == Spec.clamp v 0 1.
Proof.
  unfold Spec.clamp.
  destruct (Qlt_le_dec v 0); [|destruct (Qlt_le_dec 1 v)]; minmax_lra.
Qed.

Lemma chronological_length (rows : list TrajectoryRow.t) :
  length (chronological rows) = length rows.
Proof. unfold chronological. now rewrite length_rev, length_map. Qed.

Lemma analyze_rows (w : World) (student_id : string)
    (rows : list TrajectoryRow.t) :
  _analyze_improvement_trajectory (with_trajectory (Returned rows) w) student_id
  = Returned (trajectory_of_scores (chronological rows)).
Proof.
  unfold _analyze_improvement_trajectory, trajectory_of_scores.
  unfold with_trajectory, mbind, outcome_bind, Py.bind.
  cbn [execute_trajectory_query]. unfold chronological.
  rewrite !length_rev, !length_map.
  destruct (length rows <? 2)%nat; reflexivity.
Qed.

Lemma trajectory_of_scores_range (scores : list Q) :
  0 <= trajectory_of_scores scores /\ trajectory_of_scores scores <= 1.
Proof.
  unfold trajectory_of_scores.
  destruct (length scores <? 2)%nat; [lra|].
  set (slope := fst _). clearbody slope. minmax_lra.
Qed.

(** The trajectory analysis always returns, and returns a value of [0, 1]. *)
Lemma analyze_returns (w : World) (student_id : string) :
  exists m, _analyze_improvement_trajectory w student_id = Returned m /\
            0 <= m /\ m <= 1.
Proof.
  unfold _analyze_improvement_trajectory, mbind, outcome_bind, Py.bind.
  unfold Py.try_except.
  destruct (execute_trajectory_query w student_id) as [rows|e].
  - destruct (length rows <? 2)%nat.
    + exists (1 # 2). split; [reflexivity|lra].
    + eexists. split; [reflexivity|].
      set (slope := fst _). clearbody slope. minmax_lra.
  - exists (1 # 2). split; [reflexivity|lra].
Qed.

Lemma StronglySorted_impl {A : Type} (R R' : A -> A -> Prop) (l : list A) :
  (forall a b, R a b -> R' a b) -> StronglySorted R l -> StronglySorted R' l.
Proof.
  intros HR. induction 1 as [|a l _ IH Ha]; constructor; [exact IH|].
  revert Ha. apply List.Forall_impl. exact (HR a).
Qed.

(** The sign of the fitted slope for scores that all move in the direction of
    [s]. *)
Lemma slope_sign (s : Q) (scores : list Q) :
  (2 <= length scores)%nat ->
  StronglySorted (fun y y' => 0 < s * (y' - y)) scores ->
  0 < s * fst (Np.polyfit1 (Np.arange (length scores)) scores).
Proof.
  intros Hn Hs.
  rewrite (polyfit1_is_ols_slope scores Hn), ols_slope_indexed. cbv zeta.
  pose proof (arange_variance_positive (length scores) Hn) as Hd.
  pose proof (indices_concordant s 0 scores Hs) as Hc.
  apply cross_moment_sign in Hc; [|apply arange_from_length].
  destruct Hc as [_ Hc]. rewrite arange_from_length in Hc. specialize (Hc Hn).
  set (N := cross_moment _ scores) in *. set (D := cross_moment _ _) in *.
  clearbody N D.
  setoid_replace (s * (N / D)) with ((s * N) / D) using relation Qeq
    by (field; lra).
  apply Qlt_shift_div_l; lra.
Qed.

(** C4: for a history of fewer than two points the trajectory analysis
    returns exactly 0.5; for a history of two points or more it returns
    clamp(0.5 + b/20, 0, 1), where b is the ordinary least-squares slope
    (nΣxy − ΣxΣy) / (nΣx² − (Σx)²) of the (index, score) pairs, the indices
    being 0..n−1 and the points being taken earliest first.  The history is
    the rows that the query hands to the function. *)
Theorem trajectory_momentum_is_clamped_slope (w : World) (student_id : string)
    (rows : list TrajectoryRow.t) :
  let history := chronological rows in
  exists m,
    _analyze_improvement_trajectory (with_trajectory (Returned rows) w)
      student_id = Returned m /\
    m == Spec.momentum history /\
    if (length history <? 2)%nat then m = 1 # 2
    else m == Spec.clamp
                ((1 # 2) + Spec.ols_slope (Spec.indexed_from 0 history) / 20) 0 1.
Proof.
  intros history. exists (trajectory_of_scores history).
  split; [apply analyze_rows|].
  unfold trajectory_of_scores, Spec.momentum.
  destruct (length history <? 2)%nat eqn:E.
  - split; reflexivity.
  - apply Nat.ltb_ge in E.
    pose proof (polyfit1_is_ols_slope history E) as Hslope.
    pose proof (clamp_unit
                  ((1 # 2) + Spec.ols_slope (Spec.indexed_from 0 history) / 20))
      as Hclamp.
    set (fitted := fst _) in *. set (b := Spec.ols_slope _) in *.
    set (c := Spec.clamp _ 0 1) in *. clearbody fitted b c.
    split; minmax_lra.
Qed.

(** C8: for a history of two points or more, scores that strictly increase in
    chronological order give a momentum strictly above 0.5, and scores that
    strictly decrease give a momentum strictly below 0.5. *)
Theorem trajectory_follows_direction (w : World) (student_id : string)
    (rows : list TrajectoryRow.t) :
  (2 <= length rows)%nat ->
  let history := chronological rows in
  exists m,
    _analyze_improvement_trajectory (with_trajectory (Returned rows) w)
      student_id = Returned m /\
    (Sorted Qlt history -> 1 # 2 < m) /\
    (Sorted (fun earlier later => later < earlier) history -> m < 1 # 2).
Proof.
  intros Hn history. exists (trajectory_of_scores history).
  split; [apply analyze_rows|].
  assert (Hlen : (2 <= length history)%nat)
    by (subst history; now rewrite chronological_length).
  unfold trajectory_of_scores.
  destruct (length history <? 2)%nat eqn:E; [apply Nat.ltb_lt in E; lia|].
  split; intros Hs.
  - apply Sorted_StronglySorted in Hs; [|intros a b c; apply Qlt_trans].
    pose proof (slope_sign 1 history Hlen) as Hpos.
    set (slope := fst _) in *. clearbody slope.
    assert (0 < 1 * slope).
    { apply Hpos. revert Hs. apply StronglySorted_impl. intros a b Hab. lra. }
    minmax_lra.
  - apply Sorted_StronglySorted in Hs;
      [|intros a b c Hab Hbc; now apply Qlt_trans with b].
    pose proof (slope_sign (-1) history Hlen) as Hneg.
    set (slope := fst _) in *. clearbody slope.
    assert (0 < (-1) * slope).
    { apply Hneg. revert Hs. apply StronglySorted_impl. intros a b Hab. lra. }
    minmax_lra.
Qed.

(** The histories 60, 65, 70, 75, 80 and 80, 75, 70, 65, 60. *)
Lemma trajectory_follows_direction_witness :
  (exists m,
     _analyze_improvement_trajectory
       (with_trajectory (Returned Examples.rising) Examples.quiet) "s-1"
     = Returned m /\ 1 # 2 < m) /\
  (exists m,
     _analyze_improvement_trajectory
       (with_trajectory (Returned Examples.falling) Examples.quiet) "s-1"
     = Returned m /\ m < 1 # 2).
Proof.
  split.
  - destruct (trajectory_follows_direction Examples.quiet "s-1" Examples.rising)
      as (m & Hm & Hup & _); [simpl; lia|].
    exists m. split; [exact Hm|]. apply Hup.
    repeat constructor.
  - destruct (trajectory_follows_direction Examples.quiet "s-1" Examples.falling)
      as (m & Hm & _ & Hdown); [simpl; lia|].
    exists m. split; [exact Hm|]. apply Hdown.
    repeat constructor.
Defined.

End Trajectory.

(** ** The excellence factors and the excellence score *)

Section Score.

Import ExcellenceEngine.

Lemma three_sessions_valid : valid_metrics Examples.three_sessions.
Proof.
  constructor; simpl; try lia; try lra.
  repeat constructor; simpl; lra.
Qed.

Lemma declining_valid : valid_metrics Examples.declining.
Proof. constructor; simpl; try lia; try lra. constructor. Qed.

(** C1: at [{'current_gpa': 0.0, 'gpa_trend': 'declining'}], a well-formed
    input, the academic performance factor is -5: the factor computation
    leaves the interval [0, 100] that its docstring announces. *)
Theorem academic_performance_below_zero :
  valid_metrics Examples.declining /\
  _calculate_academic_performance Examples.declining == -5 /\
  academic_performance (_calculate_excellence_factors Examples.declining) < 0.
Proof.
  split; [exact declining_valid|]. split; reflexivity.
Qed.

(** What holds of the factors on every well-formed input: all five are at
    most 100, four are non-negative and the academic one is at least -5. *)
Lemma factors_range (sd : StudentData) :
  valid_metrics sd ->
  let f := _calculate_excellence_factors sd in
  (-5 <= academic_performance f /\ academic_performance f <= 100) /\
  (0 <= research_engagement f /\ research_engagement f <= 100) /\
  (0 <= critical_thinking f /\ critical_thinking f <= 100) /\
  (0 <= leadership_service f /\ leadership_service f <= 100) /\
  (0 <= innovation_creativity f /\ innovation_creativity f <= 100).
Proof.
  intros V. simpl.
  pose proof (academic_bounds sd V). pose proof (research_bounds sd V).
  pose proof (critical_thinking_bounds sd V). pose proof (leadership_bounds sd V).
  pose proof (innovation_bounds sd V).
  repeat split; lra.
Qed.

(** C10, as stated, fails: the floors do not hold for every student input.
    With a negative number of research projects, of frameworks and of
    original projects and a negative leadership impact score, the four
    factors are 5, 37, -50 and 20, each below its floor. *)
Lemma factors_below_floors :
  let factors := _calculate_excellence_factors MoreExamples.negative_counts in
  (research_engagement factors == 5 /\ research_engagement factors < 20) /\
  (critical_thinking factors == 37 /\ critical_thinking factors < 40) /\
  (leadership_service factors == -50 /\ leadership_service factors < 10) /\
  (innovation_creativity factors == 20 /\ innovation_creativity factors < 30).
Proof.
  vm_compute. split; [|split; [|split]]; split; reflexivity.
Qed.

(** C10, amended: on every well-formed student input (no negative grade point
    average, count, number of hours or quality score), research_engagement
    is at least 20, critical_thinking at least 40, leadership_service at
    least 10 and innovation_creativity at least 30. *)
Theorem factor_floors (student_data : StudentData) :
  valid_metrics student_data ->
  let factors := _calculate_excellence_factors student_data in
  20 <= research_engagement factors /\
  40 <= critical_thinking factors /\
  10 <= leadership_service factors /\
  30 <= innovation_creativity factors.
Proof.
  intros V. simpl.
  repeat split.
  - apply (research_bounds _ V).
  - apply (critical_thinking_bounds _ V).
  - apply (leadership_bounds _ V).
  - apply (innovation_bounds _ V).
Qed.

(** The floors at the student [three_sessions]. *)
Lemma factor_floors_witness :
  let factors := _calculate_excellence_factors Examples.three_sessions in
  20 <= research_engagement factors /\
  40 <= critical_thinking factors /\
  10 <= leadership_service factors /\
  30 <= innovation_creativity factors.
Proof.
  apply (factor_floors Examples.three_sessions).
  constructor; simpl; try lia; try (intro H; discriminate H).
  repeat constructor; simpl; intro H; discriminate H.
Defined.

Lemma calculate_with_data (w : World) (now : datetime) (student_id : string)
    (sd : StudentData) :
  calculate_excellence_score w now student_id (Some sd) =
  match _update_excellence_score_in_db w student_id (final_score sd)
          (_calculate_excellence_factors sd) with
  | Returned _ => Returned (score_dict sd now)
  | Raised e => Returned (ScoreDict.Error e)
  end.
Proof.
  unfold calculate_excellence_score, score_dict, final_score, rounded_factors.
  unfold mbind, outcome_bind, Py.bind, Py.try_except.
  destruct (_update_excellence_score_in_db w student_id _ _); reflexivity.
Qed.

Lemma final_score_formula (sd : StudentData) :
  final_score sd ==
  ScoreSpec.excellence_score (_calculate_excellence_factors sd)
    (_get_level_multiplier (academic_level sd)).
Proof.
  unfold final_score, ScoreSpec.excellence_score, weighted_total, factor_weights.
  cbn [academic_performance research_engagement critical_thinking
       leadership_service innovation_creativity].
  apply Q.min_comm.
Qed.

(** On well-formed data the score returned under ['excellence_score'] lies in
    [0, 100]. *)
Lemma returned_score_range (sd : StudentData) (now : datetime) :
  valid_metrics sd ->
  match ScoreDict.get_excellence_score (score_dict sd now) with
  | Some s => 0 <= s /\ s <= 100
  | None => False
  end.
Proof.
  intros V. cbn. pose proof (final_score_bounds sd V) as [Hlo Hhi]. split.
  - change 0 with (inject_Z 0). apply round_ge. change (inject_Z 0) with 0. lra.
  - change 100 with (inject_Z 100). apply round_le. exact Hhi.
Qed.

(** [DatabaseManager.update_excellence_score] swallows every failure: it
    returns [True] when the three steps ran and [False] otherwise; the INSERT
    is not issued when the UPDATE or [json.dumps] raised. *)
Lemma update_excellence_score_never_raises (execute_update : Outcome Z)
    (dumps_factors : Outcome string) (execute_insert : string -> Outcome Z) :
  DatabaseManager.update_excellence_score execute_update dumps_factors
    execute_insert =
  Returned (match execute_update, dumps_factors with
            | Returned _, Returned factors =>
                match execute_insert factors with
                | Returned _ => true
                | Raised _ => false
                end
            | _, _ => false
            end).
Proof.
  destruct execute_update, dumps_factors as [factors|]; try reflexivity.
  unfold DatabaseManager.update_excellence_score, mbind, outcome_bind, Py.bind.
  destruct (execute_insert factors); reflexivity.
Qed.

(** C3, as stated, fails: for the student [three_sessions] the call returns
    55.67 under ['excellence_score'], and the formula gives 167/3. *)
Lemma returned_score_differs_from_formula :
  exists d s,
    calculate_excellence_score Examples.quiet 0%Z "s-1"
      (Some Examples.three_sessions) = Returned d /\
    ScoreDict.get_excellence_score d = Some s /\
    s == 5567 # 100 /\
    ScoreSpec.excellence_score
      (_calculate_excellence_factors Examples.three_sessions)
      (_get_level_multiplier (academic_level Examples.three_sessions))
    == 167 # 3 /\
    ~ s == ScoreSpec.excellence_score
             (_calculate_excellence_factors Examples.three_sessions)
             (_get_level_multiplier (academic_level Examples.three_sessions)).
Proof.
  eexists. eexists. split; [rewrite calculate_with_data; reflexivity|].
  split; [reflexivity|].
  split; [vm_compute; reflexivity|].
  split; [vm_compute; reflexivity|].
  intros H. vm_compute in H. discriminate H.
Qed.

(** C3, amended: the score returned under ['excellence_score'] is
    min(100, Σ(factor·weight) · level_multiplier) rounded to two decimal
    places, hence within 0.005 of it; the call returns no score only when the
    persistence write raises. *)
Theorem returned_score_is_rounded_formula (w : World) (now : datetime)
    (student_id : string) (student_data : StudentData) :
  let formula :=
    ScoreSpec.excellence_score (_calculate_excellence_factors student_data)
      (_get_level_multiplier (academic_level student_data)) in
  exists d,
    calculate_excellence_score w now student_id (Some student_data) = Returned d /\
    match ScoreDict.get_excellence_score d with
    | Some s =>
        s = Py.round (final_score student_data) 2 /\
        final_score student_data == formula /\
        Qabs (s - formula) <= 1 # 200
    | None =>
        exists e,
          _update_excellence_score_in_db w student_id (final_score student_data)
            (_calculate_excellence_factors student_data) = Raised e /\
          d = ScoreDict.Error e
    end.
Proof.
  intros formula. rewrite calculate_with_data.
  destruct (_update_excellence_score_in_db w student_id _ _) as [written|e].
  - eexists. split; [reflexivity|]. cbn [score_dict ScoreDict.get_excellence_score].
    split; [reflexivity|]. split; [apply final_score_formula|].
    pose proof (round_error (final_score student_data) 2) as Hr.
    change ((1 # 2) / inject_Z (10 ^ Z.of_nat 2)) with (1 # 200) in Hr.
    pose proof (final_score_formula student_data) as Hf. fold formula in Hf.
    apply Qabs_Qle_condition in Hr. apply Qabs_Qle_condition.
    set (r := Py.round _ 2) in *. clearbody r formula. split; lra.
  - eexists. split; [reflexivity|]. cbn. exists e. split; reflexivity.
Qed.

(** C2, as stated, fails: when the write raises, the call returns the error
    dict and no score; when the failure is swallowed and the write reports
    [False], the call returns the very dict of a successful write, which has
    no entry for a warning. *)
Lemma persistence_failure_counterexample :
  let sd := Examples.three_sessions in
  let call outcome :=
    calculate_excellence_score (with_score_write outcome Examples.quiet)
      0%Z "s-1" (Some sd) in
  (persistence_failed (Raised "connection lost") = true /\
   call (Raised "connection lost") = Returned (ScoreDict.Error "connection lost") /\
   ScoreDict.get_excellence_score (ScoreDict.Error "connection lost") = None) /\
  (persistence_failed (Returned false) = true /\
   call (Returned false) = call (Returned true) /\
   exists d, call (Returned false) = Returned d /\
     ScoreDict.keys d =
     ["excellence_score"; "factors"; "level_multiplier"; "calculated_at"]%string).
Proof.
  cbv zeta beta. rewrite !calculate_with_data.
  cbn [with_score_write _update_excellence_score_in_db].
  split; [split; [|split]|split; [|split]]; try reflexivity.
  eexists. split; reflexivity.
Qed.

(** C2, amended: when the persistence write fails without raising, the call
    returns the computed score dict, the same dict as when the write succeeds,
    with the four entries of a score dict and none for a warning; when the
    write raises, the call returns [{'error': str(e), 'score': 0}]. *)
Theorem persistence_failure_outcome (w : World) (now : datetime)
    (student_id : string) (student_data : StudentData) :
  let call outcome :=
    calculate_excellence_score (with_score_write outcome w) now student_id
      (Some student_data) in
  (forall written : bool,
     call (Returned written) = Returned (score_dict student_data now)) /\
  ScoreDict.get_excellence_score (score_dict student_data now)
    = Some (Py.round (final_score student_data) 2) /\
  ScoreDict.keys (score_dict student_data now) =
    ["excellence_score"; "factors"; "level_multiplier"; "calculated_at"]%string /\
  (forall e : string,
     call (Raised e) = Returned (ScoreDict.Error e) /\
     ScoreDict.get_score (ScoreDict.Error e) = Some 0%Z /\
     ScoreDict.get_excellence_score (ScoreDict.Error e) = None).
Proof.
  cbv zeta beta. split; [|split; [|split]].
  - intros written. rewrite calculate_with_data. reflexivity.
  - reflexivity.
  - reflexivity.
  - intros e. split; [|split].
    + rewrite calculate_with_data. reflexivity.
    + reflexivity.
    + reflexivity.
Qed.

End Score.

(** ** The distinction predictor *)

Section Prediction.

Import ExcellenceEngine.

(** Every entry of the requirement table has positive thresholds and
    non-negative weights that sum to 1. *)
Lemma requirement_facts (distinction : string) (requirement : DistinctionRequirement) :
  distinction_requirements !! distinction = Some requirement ->
  0 < gpa_min requirement /\ 0 < excellence_score_min requirement /\
  0 <= weight_gpa requirement /\ 0 <= weight_excellence requirement /\
  weight_gpa requirement + weight_excellence requirement == 1.
Proof.
  unfold distinction_requirements. simpl. intros H.
  repeat (rewrite lookup_insert in H; case_decide;
          [injection H as <-; cbn; repeat split; reflexivity || (intro E; discriminate E)|]).
  rewrite lookup_empty in H. discriminate H.
Qed.

Lemma confidence_range (sd : StudentData) (distinction : string) :
  70 <= _calculate_prediction_confidence sd distinction /\
  _calculate_prediction_confidence sd distinction <= 95.
Proof.
  unfold _calculate_prediction_confidence.
  set (present := length (List.filter _ data_fields)).
  assert (Hp : 0 <= inject_Z (Z.of_nat present) / inject_Z (Z.of_nat (length data_fields))).
  { apply Qle_shift_div_l; [reflexivity|].
    rewrite Qmult_0_l. change 0 with (inject_Z 0). rewrite <- Zle_Qle. lia. }
  set (completeness := _ / _) in *. clearbody completeness.
  destruct (10 <=? _)%nat; [|destruct (5 <=? _)%nat];
    destruct (90 <=? _)%Z; minmax_lra.
Qed.

(** The score read by the predictor is not negative on well-formed data. *)
Lemma current_excellence_nonneg (w : World) (now : datetime) (student_id : string)
    (sd : StudentData) (d : ScoreDict.t) :
  valid_metrics sd ->
  calculate_excellence_score w now student_id (Some sd) = Returned d ->
  0 <= default 0 (ScoreDict.get_excellence_score d).
Proof.
  intros V. rewrite calculate_with_data.
  destruct (_update_excellence_score_in_db w student_id _ _); intros [= <-]; cbn.
  - change 0 with (inject_Z 0). apply round_ge. change (inject_Z 0) with 0.
    pose proof (final_score_bounds sd V). lra.
  - lra.
Qed.

(** A prediction that succeeds went through every step of the computation;
    the lemma names the values on the way. *)
Lemma prediction_inv (w : World) (now : datetime) (student_id distinction : string)
    (r : PredictionResult.t) :
  predict_distinction_probability w now student_id distinction
    = Returned (PredictionDict.Prediction r) ->
  exists requirement sd score trajectory_factor improvement estimated keys,
    distinction_requirements !! distinction = Some requirement /\
    _get_comprehensive_student_data w student_id = Returned (Some sd) /\
    calculate_excellence_score w now student_id (Some sd) = Returned score /\
    _analyze_improvement_trajectory w student_id = Returned trajectory_factor /\
    _identify_improvement_factors w sd distinction = Returned improvement /\
    _estimate_achievement_timeline w student_id distinction
      (default 0 (ScoreDict.get_excellence_score score))
      (excellence_score_min requirement) = Returned estimated /\
    _get_key_success_factors w distinction = Returned keys /\
    r = prediction_dict distinction requirement sd
          (default 0 (ScoreDict.get_excellence_score score))
          trajectory_factor improvement estimated keys now.
Proof.
  unfold predict_distinction_probability.
  unfold mbind, outcome_bind, Py.bind, Py.try_except, Py.div.
  intros H.
  destruct (distinction_requirements !! distinction) as [requirement|] eqn:Ereq;
    [|discriminate H].
  destruct (requirement_facts _ _ Ereq) as (Hg & Hs & _).
  destruct (_get_comprehensive_student_data w student_id) as [[sd|]|] eqn:Esd;
    try discriminate H.
  destruct (calculate_excellence_score w now student_id (Some sd))
    as [score|] eqn:Escore; [|discriminate H].
  destruct (Qlt_le_dec 0 (gpa_min requirement)) as [_|Hle]; [|lra].
  destruct (Qeq_bool (gpa_min requirement) 0) eqn:Eg;
    [apply Qeq_bool_eq in Eg; lra|].
  destruct (Qeq_bool (excellence_score_min requirement) 0) eqn:Ee;
    [apply Qeq_bool_eq in Ee; lra|].
  destruct (_analyze_improvement_trajectory w student_id) as [tf|] eqn:Etf;
    [|discriminate H].
  destruct (_identify_improvement_factors w sd distinction) as [improvement|] eqn:Ei;
    [|discriminate H].
  destruct (_estimate_achievement_timeline w student_id distinction _ _)
    as [estimated|] eqn:Et; [|discriminate H].
  destruct (_get_key_success_factors w distinction) as [keys|] eqn:Ek;
    [|discriminate H].
  destruct (_store_prediction_in_db w student_id _) eqn:Est; [|discriminate H].
  injection H as <-.
  exists requirement, sd, score, tf, improvement, estimated, keys.
  unfold prediction_dict, probability_of, gpa_factor_of.
  destruct (Qlt_le_dec 0 (gpa_min requirement)) as [_|Hle]; [|lra].
  repeat split; assumption || reflexivity.
Qed.

(** C5: for a distinction name that has no entry in the requirement table,
    the prediction returns [{'error': 'Unknown distinction: <name>'}], whatever
    the student, the database and the clock are: no requirement is made up and
    no collaborator is consulted. *)
Theorem unknown_distinction_is_an_error (w : World) (now : datetime)
    (student_id distinction : string) :
  distinction_requirements !! distinction = None ->
  predict_distinction_probability w now student_id distinction =
  Returned (PredictionDict.Error ("Unknown distinction: " ++ distinction)).
Proof.
  intros H. unfold predict_distinction_probability. rewrite H. reflexivity.
Qed.

(** [Nobel_Prize] is not in the requirement table. *)
Lemma unknown_distinction_is_an_error_witness :
  predict_distinction_probability Examples.quiet 0%Z "s-1" "Nobel_Prize" =
  Returned (PredictionDict.Error "Unknown distinction: Nobel_Prize").
Proof.
  apply (unknown_distinction_is_an_error Examples.quiet 0%Z "s-1" "Nobel_Prize").
  vm_compute. reflexivity.
Defined.

Lemma probability_of_range (requirement : DistinctionRequirement)
    (gpa score tf : Q) :
  0 < gpa_min requirement -> 0 < excellence_score_min requirement ->
  0 <= weight_gpa requirement -> 0 <= weight_excellence requirement ->
  0 <= tf -> tf <= 1 ->
  probability_of requirement gpa score tf <= 95 /\
  (0 <= gpa -> 0 <= score -> 0 <= probability_of requirement gpa score tf).
Proof.
  intros Hg Hs Hwg Hwe Htf0 Htf1. unfold probability_of.
  split; [apply Q.le_min_r|]. intros Hgpa Hscore.
  assert (Hgf : 0 <= gpa_factor_of requirement gpa).
  { unfold gpa_factor_of. destruct (Qlt_le_dec 0 (gpa_min requirement)); [|lra].
    apply Q.min_glb; [|lra]. apply Qle_shift_div_l; lra. }
  assert (Hef : 0 <= Qmin (score / excellence_score_min requirement) 1).
  { apply Q.min_glb; [|lra]. apply Qle_shift_div_l; lra. }
  set (gf := gpa_factor_of _ _) in *. set (ef := Qmin (_ / _) 1) in *.
  clearbody gf ef.
  apply Q.min_glb; [|lra].
  apply Qmult_le_0_compat; [|lra].
  apply Qmult_le_0_compat; [|lra].
  pose proof (Qmult_le_0_compat _ _ Hgf Hwg).
  pose proof (Qmult_le_0_compat _ _ Hef Hwe). lra.
Qed.

(** C6, as stated, fails: the probability is not in [0, 95] on every input on
    which the prediction succeeds.  For a student whose grade point average
    on record is -4, the prediction for the Dean's List succeeds with
    probability -75.5. *)
Lemma negative_gpa_negative_probability :
  exists r,
    predict_distinction_probability MoreExamples.negative_gpa_world 0%Z
      "s-1" "Dean_List" = Returned (PredictionDict.Prediction r) /\
    PredictionResult.probability r == -(151 # 2) /\
    PredictionResult.probability r < 0.
Proof.
  eexists. split; [vm_compute; reflexivity|].
  split; reflexivity.
Qed.

(** C6, amended: whenever the prediction succeeds, the returned probability
    is at most 95 and the returned confidence lies in [0, 95]; the
    probability is at least 0 when the student data on record is well-formed
    (no negative grade point average, count, number of hours or quality
    score). *)
Theorem prediction_caps (w : World) (now : datetime)
    (student_id distinction : string) (r : PredictionResult.t) :
  predict_distinction_probability w now student_id distinction
    = Returned (PredictionDict.Prediction r) ->
  (PredictionResult.probability r <= 95 /\
   0 <= PredictionResult.confidence r /\ PredictionResult.confidence r <= 95) /\
  ((forall sd, _get_comprehensive_student_data w student_id = Returned (Some sd) ->
               valid_metrics sd) ->
   0 <= PredictionResult.probability r).
Proof.
  intros H. apply prediction_inv in H.
  destruct H as (req & sd & score & tf & imp & est & keys &
                 Hreq & Hsd & Hscore & Htf & _ & _ & _ & ->).
  destruct (requirement_facts _ _ Hreq) as (Hg & Hs & Hwg & Hwe & _).
  destruct (analyze_returns w student_id) as (tf' & Htf' & Htf0 & Htf1).
  rewrite Htf in Htf'. injection Htf' as <-.
  destruct (probability_of_range req (current_gpa sd)
              (default 0 (ScoreDict.get_excellence_score score)) tf
              Hg Hs Hwg Hwe Htf0 Htf1) as [Hcap Hnonneg].
  pose proof (confidence_range sd distinction) as [Hc70 Hc95].
  cbn [prediction_dict PredictionResult.probability PredictionResult.confidence].
  split; [split; [|split]|].
  - change 95 with (inject_Z 95). apply round_le. exact Hcap.
  - change 0 with (inject_Z 0). apply round_ge. change (inject_Z 0) with 0. lra.
  - change 95 with (inject_Z 95). apply round_le. exact Hc95.
  - intros Hvalid. specialize (Hvalid sd Hsd).
    change 0 with (inject_Z 0). apply round_ge. change (inject_Z 0) with 0.
    apply Hnonneg; [apply (valid_gpa sd Hvalid)|].
    exact (current_excellence_nonneg w now student_id sd score Hvalid Hscore).
Qed.

(** The prediction of [Dean_List] in the world [quiet]. *)
Lemma prediction_caps_witness :
  exists r,
    predict_distinction_probability Examples.quiet 0%Z "s-1" "Dean_List"
      = Returned (PredictionDict.Prediction r) /\
    (PredictionResult.probability r <= 95 /\
     0 <= PredictionResult.confidence r /\ PredictionResult.confidence r <= 95) /\
    0 <= PredictionResult.probability r.
Proof.
  eexists. split; [vm_compute; reflexivity|].
  match goal with
  | |- (PredictionResult.probability ?r <= _ /\ _) /\ _ =>
      destruct (prediction_caps Examples.quiet 0%Z "s-1" "Dean_List" r)
        as [Hcaps Hnonneg]; [vm_compute; reflexivity|]
  end.
  split; [exact Hcaps|]. apply Hnonneg.
  intros sd [= <-].
  constructor; simpl; try lia; try (intro H; discriminate H).
  repeat constructor; simpl; intro H; discriminate H.
Defined.

(** C7, as stated, fails: with the same world, the same student and the same
    history, the predictions made at two clock readings differ. *)
Lemma prediction_depends_on_clock :
  exists r1 r2,
    predict_distinction_probability Examples.quiet 0%Z "s-1" "Dean_List"
      = Returned (PredictionDict.Prediction r1) /\
    predict_distinction_probability Examples.quiet 1%Z "s-1" "Dean_List"
      = Returned (PredictionDict.Prediction r2) /\
    r1 <> r2.
Proof.
  eexists. eexists.
  split; [vm_compute; reflexivity|]. split; [vm_compute; reflexivity|].
  intros H. apply (f_equal PredictionResult.calculated_at) in H.
  discriminate H.
Qed.

(** C7, amended: two predictions made in the same world (same student data,
    same history, same answers of the collaborators) agree in every entry but
    ['calculated_at'], which holds the clock reading of each call. *)
Theorem prediction_deterministic_up_to_clock (w : World) (now1 now2 : datetime)
    (student_id distinction : string) (r1 r2 : PredictionResult.t) :
  predict_distinction_probability w now1 student_id distinction
    = Returned (PredictionDict.Prediction r1) ->
  predict_distinction_probability w now2 student_id distinction
    = Returned (PredictionDict.Prediction r2) ->
  r2 = PredictionResult.with_calculated_at now2 r1 /\
  PredictionResult.calculated_at r1 = now1 /\
  PredictionResult.calculated_at r2 = now2.
Proof.
  intros H1 H2. apply prediction_inv in H1, H2.
  destruct H1 as (req & sd & score & tf & imp & est & keys &
                  Hreq & Hsd & Hscore & Htf & Himp & Hest & Hkeys & ->).
  destruct H2 as (req' & sd' & score' & tf' & imp' & est' & keys' &
                  Hreq' & Hsd' & Hscore' & Htf' & Himp' & Hest' & Hkeys' & ->).
  rewrite Hreq in Hreq'. injection Hreq' as <-.
  rewrite Hsd in Hsd'. injection Hsd' as <-.
  rewrite Htf in Htf'. injection Htf' as <-.
  rewrite Himp in Himp'. injection Himp' as <-.
  rewrite Hkeys in Hkeys'. injection Hkeys' as <-.
  assert (Hsame : ScoreDict.get_excellence_score score'
                  = ScoreDict.get_excellence_score score).
  { rewrite calculate_with_data in Hscore, Hscore'.
    destruct (_update_excellence_score_in_db w student_id _ _);
      injection Hscore as <-; injection Hscore' as <-; reflexivity. }
  rewrite Hsame in *.
  rewrite Hest in Hest'. injection Hest' as <-.
  repeat split.
Qed.

(** The predictions of [Dean_List] in the world [quiet] at the clock readings
    0 and 1. *)
Lemma prediction_deterministic_up_to_clock_witness :
  exists r1 r2,
    predict_distinction_probability Examples.quiet 0%Z "s-1" "Dean_List"
      = Returned (PredictionDict.Prediction r1) /\
    predict_distinction_probability Examples.quiet 1%Z "s-1" "Dean_List"
      = Returned (PredictionDict.Prediction r2) /\
    r2 = PredictionResult.with_calculated_at 1%Z r1.
Proof.
  eexists. eexists.
  split; [vm_compute; reflexivity|]. split; [vm_compute; reflexivity|].
  match goal with
  | |- ?r2 = PredictionResult.with_calculated_at _ ?r1 =>
      apply (prediction_deterministic_up_to_clock Examples.quiet 0%Z 1%Z
               "s-1" "Dean_List" r1 r2); vm_compute; reflexivity
  end.
Defined.

End Prediction.

(** ** The prediction cache *)

Section Cache.

Import PredictionService.

Variable dumps : PredictionDict.t -> Outcome string.
Variable loads : string -> Outcome PredictionDict.t.

(** On an unavailable backend both [try] bodies raise, unless caching is
    switched off. *)
Lemma unavailable_attempts_raise (self : t) (student_id distinction : string)
    (prediction : PredictionDict.t) (ttl : Z) :
  backend_unavailable self = true ->
  cache_enabled self = false \/
  ((exists e, lookup_attempt loads self student_id distinction = Raised e) /\
   (exists e, store_attempt dumps self student_id distinction prediction ttl
              = Raised e)).
Proof.
  unfold backend_unavailable, lookup_attempt, store_attempt, get_redis_client.
  unfold Redis.get, Redis.setex, mbind, outcome_bind, Py.bind.
  destruct (cache_enabled self); [|now left]. cbn [negb orb].
  destruct (redis_client self) as [client|]; [|intros _; right; eauto].
  destruct (Redis.reachable client); [discriminate|intros _; right].
  split; [eauto|]. destruct (dumps prediction); eauto.
Qed.

Lemma get_cached_prediction_returns (self : t) (student_id distinction : string) :
  exists cached,
    get_cached_prediction loads self student_id distinction = Returned cached.
Proof.
  unfold get_cached_prediction, Py.try_except.
  destruct (negb (cache_enabled self)); [eauto|].
  destruct (lookup_attempt loads self student_id distinction); eauto.
Qed.

Lemma cache_prediction_returns (self : t) (student_id distinction : string)
    (prediction : PredictionDict.t) (ttl : Z) :
  fst (cache_prediction dumps self student_id distinction prediction ttl)
  = Returned tt.
Proof.
  unfold cache_prediction.
  destruct (negb (cache_enabled self)); [reflexivity|].
  destruct (store_attempt dumps self student_id distinction prediction ttl);
    reflexivity.
Qed.

(** C9: neither cache operation ever raises; when the backend is unavailable
    or a step of the cache read raises, the read returns [None]; when the
    backend is unavailable or a step of the cache write raises, the write
    returns and leaves the service and its server as they were. *)
Theorem cache_failure_degrades (self : t) (student_id distinction : string)
    (prediction : PredictionDict.t) (ttl : Z) :
  (exists cached,
     get_cached_prediction loads self student_id distinction = Returned cached) /\
  fst (cache_prediction dumps self student_id distinction prediction ttl)
    = Returned tt /\
  (backend_unavailable self = true \/
   (exists e, lookup_attempt loads self student_id distinction = Raised e) ->
   get_cached_prediction loads self student_id distinction = Returned None) /\
  (backend_unavailable self = true \/
   (exists e, store_attempt dumps self student_id distinction prediction ttl
              = Raised e) ->
   cache_prediction dumps self student_id distinction prediction ttl
   = (Returned tt, self)).
Proof.
  split; [apply get_cached_prediction_returns|].
  split; [apply cache_prediction_returns|].
  split; intros H.
  - assert (H' : cache_enabled self = false \/
                 exists e, lookup_attempt loads self student_id distinction
                           = Raised e).
    { destruct H as [H|H]; [|now right].
      destruct (unavailable_attempts_raise self student_id distinction
                  prediction ttl H) as [?|[? _]]; [now left|now right]. }
    unfold get_cached_prediction, Py.try_except.
    destruct H' as [->|[e ->]]; [reflexivity|].
    destruct (negb (cache_enabled self)); reflexivity.
  - assert (H' : cache_enabled self = false \/
                 exists e, store_attempt dumps self student_id distinction
                             prediction ttl = Raised e).
    { destruct H as [H|H]; [|now right].
      destruct (unavailable_attempts_raise self student_id distinction
                  prediction ttl H) as [?|[_ ?]]; [now left|now right]. }
    unfold cache_prediction.
    destruct H' as [->|[e ->]]; [reflexivity|].
    destruct (negb (cache_enabled self)); reflexivity.
Qed.

End Cache.

(** A server that does not answer, and, on a server that does, a cached value
    that [json.loads] rejects and a prediction that [json.dumps] rejects. *)
Lemma cache_failure_degrades_witness :
  let prediction := PredictionDict.Error "Student data not found" in
  (PredictionService.get_cached_prediction Examples.failing_loads
     Examples.redis_down "s-1" "Dean_List" = Returned None /\
   PredictionService.cache_prediction Examples.failing_dumps
     Examples.redis_down "s-1" "Dean_List" prediction 600
   = (Returned tt, Examples.redis_down)).
Proof.
  intros prediction.
  destruct (cache_failure_degrades Examples.failing_dumps Examples.failing_loads
              Examples.redis_down "s-1" "Dean_List" prediction 600)
    as (_ & _ & Hread & Hwrite).
  split; [apply Hread|apply Hwrite]; left; reflexivity.
Defined.

(** * Further properties of the code *)

(** ** The factors and the score on any input *)

Section ScoreProperties.

Import ExcellenceEngine.

(** X1: on every well-formed input the local [final_score] lies between 13.5
    and 100, and so does the score returned under ['excellence_score']. *)
Theorem excellence_score_floor (w : World) (now : datetime) (student_id : string)
    (student_data : StudentData) (d : ScoreDict.t) (s : Q) :
  valid_metrics student_data ->
  calculate_excellence_score w now student_id (Some student_data) = Returned d ->
  ScoreDict.get_excellence_score d = Some s ->
  (27 # 2 <= final_score student_data /\ final_score student_data <= 100) /\
  (27 # 2 <= s /\ s <= 100).
Proof.
  intros V Hd Hs. pose proof (final_score_bounds student_data V) as [Hlo Hhi].
  split; [split; assumption|].
  rewrite calculate_with_data in Hd.
  destruct (_update_excellence_score_in_db w student_id _ _);
    injection Hd as <-; [|discriminate Hs].
  cbn in Hs. injection Hs as <-.
  pose proof (round_error (final_score student_data) 2) as Hr.
  change ((1 # 2) / inject_Z (10 ^ Z.of_nat 2)) with (1 # 200) in Hr.
  split.
  - unfold Py.round. change (inject_Z (10 ^ Z.of_nat 2)) with 100.
    apply Qle_shift_div_l; [reflexivity|].
    apply Qle_trans with (inject_Z 1350); [intro H; discriminate H|].
    rewrite <- Zle_Qle. apply nearest_integer_ge.
    change (inject_Z 1350) with 1350. lra.
  - change 100 with (inject_Z 100). apply round_le. exact Hhi.
Qed.

Lemma excellence_score_floor_witness :
  exists s,
    ScoreDict.get_excellence_score (score_dict Examples.three_sessions 0%Z) = Some s /\
    27 # 2 <= s /\ s <= 100.
Proof.
  eexists. split; [reflexivity|].
  apply (excellence_score_floor Examples.quiet 0%Z "s-1" Examples.three_sessions
           (score_dict Examples.three_sessions 0%Z)).
  - constructor; simpl; try lia; try (intro H; discriminate H).
    repeat constructor; simpl; intro H; discriminate H.
  - rewrite calculate_with_data. reflexivity.
  - reflexivity.
Defined.

(** X2: whatever the input, well-formed or not, none of the five factors and
    neither the local [final_score] nor the returned score exceeds 100. *)
Theorem nothing_exceeds_100 (student_data : StudentData) (now : datetime) :
  let f := _calculate_excellence_factors student_data in
  academic_performance f <= 100 /\ research_engagement f <= 100 /\
  critical_thinking f <= 100 /\ leadership_service f <= 100 /\
  innovation_creativity f <= 100 /\
  final_score student_data <= 100 /\
  match ScoreDict.get_excellence_score (score_dict student_data now) with
  | Some s => s <= 100
  | None => False
  end.
Proof.
  cbv zeta.
  destruct (factors_at_most_100 student_data) as (Ha & Hr & Hc & Hl & Hi).
  assert (Hf : final_score student_data <= 100) by apply Q.le_min_r.
  repeat (split; [assumption|]).
  cbn [score_dict ScoreDict.get_excellence_score].
  change 100 with (inject_Z 100). apply round_le. exact Hf.
Qed.

Lemma other_factors_ignore_gpa (gpa : Q) (sd : StudentData) :
  _calculate_research_engagement (with_gpa gpa sd)
    = _calculate_research_engagement sd /\
  _calculate_critical_thinking_score (with_gpa gpa sd)
    = _calculate_critical_thinking_score sd /\
  _calculate_leadership_score (with_gpa gpa sd) = _calculate_leadership_score sd /\
  _calculate_innovation_score (with_gpa gpa sd) = _calculate_innovation_score sd /\
  _get_level_multiplier (academic_level (with_gpa gpa sd))
    = _get_level_multiplier (academic_level sd).
Proof. repeat split. Qed.

(** The academic factor as a function of the grade point average, the rest of
    the data being fixed. *)
Lemma academic_of_gpa (sd : StudentData) :
  exists bonus : Q,
    forall g, _calculate_academic_performance (with_gpa g sd)
              = Qmin (Qmin (g / 4 * 100) 100 + bonus) 100.
Proof.
  eexists. intros g. unfold _calculate_academic_performance.
  cbn [with_gpa current_gpa honors_courses gpa_trend academic_achievements].
  reflexivity.
Qed.

(** The final score as a function of the academic factor, the rest of the
    data being fixed. *)
Lemma final_score_of_academic (sd : StudentData) :
  exists rest m : Q,
    1 <= m /\
    forall g, final_score (with_gpa g sd)
              == Qmin ((_calculate_academic_performance (with_gpa g sd) * (40 # 100)
                        + rest) * m) 100.
Proof.
  exists (_calculate_research_engagement sd * (25 # 100)
          + _calculate_critical_thinking_score sd * (20 # 100)
          + _calculate_leadership_score sd * (10 # 100)
          + _calculate_innovation_score sd * (5 # 100)).
  exists (_get_level_multiplier (academic_level sd)).
  split; [apply level_multiplier_bounds|].
  intros g. unfold final_score, weighted_total, _calculate_excellence_factors.
  cbn [academic_performance research_engagement critical_thinking
       leadership_service innovation_creativity factor_weights].
  destruct (other_factors_ignore_gpa g sd) as (-> & -> & -> & -> & ->).
  set (a := _calculate_academic_performance _).
  set (r := _calculate_research_engagement _).
  set (c := _calculate_critical_thinking_score _).
  set (l := _calculate_leadership_score _).
  set (i := _calculate_innovation_score _).
  set (m := _get_level_multiplier _).
  assert (E : (a * (40 # 100) + r * (25 # 100) + c * (20 # 100) + l * (10 # 100)
               + i * (5 # 100)) * m
              == (a * (40 # 100) + (r * (25 # 100) + c * (20 # 100)
                                    + l * (10 # 100) + i * (5 # 100))) * m)
    by ring.
  clearbody a r c l i m. minmax_lra.
Qed.

(** X3: raising the grade point average of a student, everything else being
    equal, never lowers the academic performance factor nor the final
    score. *)
Theorem score_rises_with_gpa (student_data : StudentData) (gpa gpa' : Q) :
  gpa <= gpa' ->
  _calculate_academic_performance (with_gpa gpa student_data)
    <= _calculate_academic_performance (with_gpa gpa' student_data) /\
  final_score (with_gpa gpa student_data)
    <= final_score (with_gpa gpa' student_data).
Proof.
  intros Hg.
  destruct (academic_of_gpa student_data) as [bonus Ha].
  assert (Hacad : _calculate_academic_performance (with_gpa gpa student_data)
                  <= _calculate_academic_performance (with_gpa gpa' student_data)).
  { rewrite !Ha. clear Ha. minmax_lra. }
  split; [exact Hacad|].
  destruct (final_score_of_academic student_data) as (rest & m & Hm & Hf).
  rewrite (Hf gpa), (Hf gpa').
  set (a := _calculate_academic_performance (with_gpa gpa student_data)) in *.
  set (a' := _calculate_academic_performance (with_gpa gpa' student_data)) in *.
  clearbody a a'. clear Hf Ha.
  assert ((a * (40 # 100) + rest) * m <= (a' * (40 # 100) + rest) * m)
    by (apply Qmult_le_compat_r; lra).
  minmax_lra.
Qed.

Lemma score_rises_with_gpa_witness :
  final_score (with_gpa 3 Examples.three_sessions)
  <= final_score (with_gpa (7 # 2) Examples.three_sessions).
Proof.
  apply (score_rises_with_gpa Examples.three_sessions 3 (7 # 2)).
  intro H. discriminate H.
Defined.

(** X4: a grade point average above 4.0 counts as 4.0: the academic factor
    and the final score are those of the same student with 4.0. *)
Theorem gpa_above_four_counts_as_four (student_data : StudentData) (gpa : Q) :
  4 <= gpa ->
  _calculate_academic_performance (with_gpa gpa student_data)
    == _calculate_academic_performance (with_gpa 4 student_data) /\
  final_score (with_gpa gpa student_data)
    == final_score (with_gpa 4 student_data).
Proof.
  intros Hg.
  destruct (academic_of_gpa student_data) as [bonus Ha].
  assert (Hacad : _calculate_academic_performance (with_gpa gpa student_data)
                  == _calculate_academic_performance (with_gpa 4 student_data)).
  { rewrite !Ha. clear Ha. minmax_lra. }
  split; [exact Hacad|].
  destruct (final_score_of_academic student_data) as (rest & m & Hm & Hf).
  rewrite (Hf gpa), (Hf 4).
  set (a := _calculate_academic_performance (with_gpa gpa student_data)) in *.
  set (a' := _calculate_academic_performance (with_gpa 4 student_data)) in *.
  clearbody a a'. clear Hf Ha.
  assert ((a * (40 # 100) + rest) * m == (a' * (40 # 100) + rest) * m)
    by (rewrite Hacad; reflexivity).
  minmax_lra.
Qed.

Lemma gpa_above_four_counts_as_four_witness :
  final_score (with_gpa 5 Examples.three_sessions)
  == final_score (with_gpa 4 Examples.three_sessions).
Proof.
  apply (gpa_above_four_counts_as_four Examples.three_sessions 5).
  intro H. discriminate H.
Defined.


(** X6: the aggregation is monotone: if no factor decreases, neither the
    weighted total nor the capped product with a non-negative level multiplier
    decreases. *)
Theorem aggregation_is_monotone (f g : ExcellenceFactors) (level_multiplier : Q) :
  factors_le f g -> 0 <= level_multiplier ->
  weighted_total f <= weighted_total g /\
  Qmin (weighted_total f * level_multiplier) 100
    <= Qmin (weighted_total g * level_multiplier) 100.
Proof.
  intros (Ha & Hr & Hc & Hl & Hi) Hm.
  assert (Ht : weighted_total f <= weighted_total g).
  { unfold weighted_total, factor_weights.
    cbn [academic_performance research_engagement critical_thinking
         leadership_service innovation_creativity].
    lra. }
  split; [exact Ht|].
  assert (weighted_total f * level_multiplier <= weighted_total g * level_multiplier)
    by (apply Qmult_le_compat_r; assumption).
  minmax_lra.
Qed.

Lemma aggregation_is_monotone_witness :
  weighted_total (_calculate_excellence_factors Examples.declining)
  <= weighted_total (_calculate_excellence_factors Examples.three_sessions).
Proof.
  apply (aggregation_is_monotone
           (_calculate_excellence_factors Examples.declining)
           (_calculate_excellence_factors Examples.three_sessions) 1).
  - repeat split; intro H; discriminate H.
  - intro H; discriminate H.
Defined.

End ScoreProperties.

(** ** The prediction, step by step *)

Section PredictionProperties.

Import ExcellenceEngine.

(** X7: the confidence of a prediction is at least 70 and at most 95, whatever
    the student data: in every successful prediction the value under
    ['confidence'] lies in [70, 95]. *)
Theorem confidence_at_least_70 (w : World) (now : datetime)
    (student_id distinction : string) (r : PredictionResult.t) :
  predict_distinction_probability w now student_id distinction
    = Returned (PredictionDict.Prediction r) ->
  70 <= PredictionResult.confidence r /\ PredictionResult.confidence r <= 95.
Proof.
  intros H. apply prediction_inv in H.
  destruct H as (req & sd & score & tf & imp & est & keys & _ & _ & _ & _ & _ & _ & _ & ->).
  cbn [prediction_dict PredictionResult.confidence].
  pose proof (confidence_range sd distinction) as [Hlo Hhi]. split.
  - change 70 with (inject_Z 70). apply round_ge. exact Hlo.
  - change 95 with (inject_Z 95). apply round_le. exact Hhi.
Qed.

Lemma confidence_at_least_70_witness :
  exists r,
    predict_distinction_probability Examples.quiet 0%Z "s-1" "Dean_List"
      = Returned (PredictionDict.Prediction r) /\
    70 <= PredictionResult.confidence r /\ PredictionResult.confidence r <= 95.
Proof.
  eexists. split; [vm_compute; reflexivity|].
  match goal with
  | |- 70 <= PredictionResult.confidence ?r /\ _ =>
      apply (confidence_at_least_70 Examples.quiet 0%Z "s-1" "Dean_List" r)
  end.
  vm_compute. reflexivity.
Defined.

(** X8: the score that a prediction reports under ['current_excellence_score']
    is the rounded final score of the student on record when the persistence
    write of the score returns; when that write raises, the prediction is still
    made, with a current score of 0 and a gap equal to the whole requirement. *)
Theorem prediction_uses_reported_score (w : World) (now : datetime)
    (student_id distinction : string) (r : PredictionResult.t) :
  predict_distinction_probability w now student_id distinction
    = Returned (PredictionDict.Prediction r) ->
  exists sd,
    _get_comprehensive_student_data w student_id = Returned (Some sd) /\
    match _update_excellence_score_in_db w student_id (final_score sd)
            (_calculate_excellence_factors sd) with
    | Returned _ =>
        PredictionResult.current_excellence_score r = Py.round (final_score sd) 2
    | Raised _ =>
        PredictionResult.current_excellence_score r = 0 /\
        PredictionResult.gap r == PredictionResult.required_excellence_score r
    end.
Proof.
  intros H. apply prediction_inv in H.
  destruct H as (req & sd & score & tf & imp & est & keys &
                 Hreq & Hsd & Hscore & _ & _ & _ & _ & ->).
  exists sd. split; [exact Hsd|].
  rewrite calculate_with_data in Hscore.
  destruct (_update_excellence_score_in_db w student_id _ _);
    injection Hscore as <-; cbn.
  - reflexivity.
  - split; [reflexivity|].
    destruct (requirement_facts _ _ Hreq) as (_ & Hs & _).
    minmax_lra.
Qed.

Lemma prediction_uses_reported_score_witness :
  exists r,
    predict_distinction_probability
      (with_score_write (Raised "connection lost") Examples.quiet)
      0%Z "s-1" "Dean_List" = Returned (PredictionDict.Prediction r) /\
    PredictionResult.current_excellence_score r = 0 /\
    PredictionResult.gap r == 75.
Proof.
  eexists. split; [vm_compute; reflexivity|].
  match goal with
  | |- PredictionResult.current_excellence_score ?r = _ /\ _ =>
      destruct (prediction_uses_reported_score
                  (with_score_write (Raised "connection lost") Examples.quiet)
                  0%Z "s-1" "Dean_List" r) as (sd & Hsd & H);
        [vm_compute; reflexivity|]
  end.
  cbn [with_score_write _update_excellence_score_in_db] in H.
  destruct H as [H0 Hgap]. split; [exact H0|exact Hgap].
Defined.

(** The prediction once every step before the store has succeeded. *)
Lemma predict_steps (w : World) (now : datetime) (student_id distinction : string)
    (req : DistinctionRequirement) (sd : StudentData) (score : ScoreDict.t)
    (tf : Q) (imp : list string) (est : option date) (keys : list string) :
  distinction_requirements !! distinction = Some req ->
  _get_comprehensive_student_data w student_id = Returned (Some sd) ->
  calculate_excellence_score w now student_id (Some sd) = Returned score ->
  _analyze_improvement_trajectory w student_id = Returned tf ->
  _identify_improvement_factors w sd distinction = Returned imp ->
  _estimate_achievement_timeline w student_id distinction
    (default 0 (ScoreDict.get_excellence_score score))
    (excellence_score_min req) = Returned est ->
  _get_key_success_factors w distinction = Returned keys ->
  let result :=
    prediction_dict distinction req sd
      (default 0 (ScoreDict.get_excellence_score score)) tf imp est keys now in
  predict_distinction_probability w now student_id distinction =
  match _store_prediction_in_db w student_id result with
  | Returned _ => Returned (PredictionDict.Prediction result)
  | Raised e => Returned (PredictionDict.Error e)
  end.
Proof.
  intros Hreq Hsd Hscore Htf Himp Hest Hkeys. cbv zeta.
  destruct (requirement_facts _ _ Hreq) as (Hg & Hs & _).
  unfold predict_distinction_probability.
  rewrite Hreq. unfold mbind, outcome_bind, Py.bind, Py.div.
  rewrite Hsd, Hscore.
  unfold prediction_dict, probability_of, gpa_factor_of.
  destruct (Qlt_le_dec 0 (gpa_min req)) as [Hpos|Hle]; [|lra].
  destruct (Qeq_bool (gpa_min req) 0) eqn:Eg; [apply Qeq_bool_eq in Eg; lra|].
  destruct (Qeq_bool (excellence_score_min req) 0) eqn:Ee;
    [apply Qeq_bool_eq in Ee; lra|].
  rewrite Htf, Himp, Hest, Hkeys.
  match goal with
  | |- context [_store_prediction_in_db w student_id ?r] =>
      destruct (_store_prediction_in_db w student_id r)
  end; reflexivity.
Qed.

(** X9: when storing the prediction raises, the caller gets no prediction:
    the prediction that would have been returned is replaced by the error dict
    carrying the message of the store. *)
Theorem store_failure_discards_prediction (w : World) (now : datetime)
    (student_id distinction e : string) :
  let w' := with_prediction_store (Raised e) w in
  (forall r, predict_distinction_probability w' now student_id distinction
             <> Returned (PredictionDict.Prediction r)) /\
  (forall r, predict_distinction_probability w now student_id distinction
             = Returned (PredictionDict.Prediction r) ->
             predict_distinction_probability w' now student_id distinction
             = Returned (PredictionDict.Error e)).
Proof.
  cbv zeta. split.
  - intros r H. pose proof H as Hinv. apply prediction_inv in Hinv.
    destruct Hinv as (req & sd & score & tf & imp & est & keys &
                      Hreq & Hsd & Hscore & Htf & Himp & Hest & Hkeys & _).
    rewrite (predict_steps _ now student_id distinction req sd score tf imp est keys
               Hreq Hsd Hscore Htf Himp Hest Hkeys) in H.
    discriminate H.
  - intros r H. apply prediction_inv in H.
    destruct H as (req & sd & score & tf & imp & est & keys &
                   Hreq & Hsd & Hscore & Htf & Himp & Hest & Hkeys & _).
    apply (predict_steps (with_prediction_store (Raised e) w) now student_id
             distinction req sd score tf imp est keys
             Hreq Hsd Hscore Htf Himp Hest Hkeys).
Qed.

Lemma store_failure_discards_prediction_witness :
  predict_distinction_probability
    (with_prediction_store (Raised "Lock wait timeout exceeded") Examples.quiet)
    0%Z "s-1" "Dean_List"
  = Returned (PredictionDict.Error "Lock wait timeout exceeded").
Proof.
  destruct (store_failure_discards_prediction Examples.quiet 0%Z "s-1" "Dean_List"
              "Lock wait timeout exceeded") as [_ H].
  eapply H. vm_compute. reflexivity.
Defined.

(** X10: when the lookup of the student yields no data, the score calculation
    returns [{'error': 'Student data not found', 'score': 0}] and the
    prediction of a known distinction returns
    [{'error': 'Student data not found'}]; when the lookup raises, both return
    the error dict with the message of the exception. *)
Theorem student_not_found (w : World) (now : datetime)
    (student_id distinction : string) :
  is_Some (distinction_requirements !! distinction) ->
  let missing := with_student_data (Returned None) w in
  calculate_excellence_score missing now student_id None
    = Returned (ScoreDict.Error "Student data not found") /\
  predict_distinction_probability missing now student_id distinction
    = Returned (PredictionDict.Error "Student data not found") /\
  forall e,
    let failing := with_student_data (Raised e) w in
    calculate_excellence_score failing now student_id None
      = Returned (ScoreDict.Error e) /\
    predict_distinction_probability failing now student_id distinction
      = Returned (PredictionDict.Error e).
Proof.
  intros [req Hreq]. cbv zeta.
  unfold predict_distinction_probability. rewrite Hreq.
  split; [reflexivity|]. split; [reflexivity|].
  intros e. split; reflexivity.
Qed.

Lemma student_not_found_witness :
  predict_distinction_probability
    (with_student_data (Returned None) Examples.quiet) 0%Z "s-404" "Dean_List"
  = Returned (PredictionDict.Error "Student data not found").
Proof.
  apply (student_not_found Examples.quiet 0%Z "s-404" "Dean_List").
  vm_compute. eexists. reflexivity.
Defined.

(** X11: in a successful prediction whose reported grade point average and
    score both reach the reported requirements, the gap is 0 and the
    probability lies in [70, 95]. *)
Theorem thresholds_met_probability (w : World) (now : datetime)
    (student_id distinction : string) (r : PredictionResult.t) :
  predict_distinction_probability w now student_id distinction
    = Returned (PredictionDict.Prediction r) ->
  PredictionResult.required_gpa r <= PredictionResult.current_gpa r ->
  PredictionResult.required_excellence_score r
    <= PredictionResult.current_excellence_score r ->
  PredictionResult.gap r == 0 /\
  70 <= PredictionResult.probability r /\ PredictionResult.probability r <= 95.
Proof.
  intros H. apply prediction_inv in H.
  destruct H as (req & sd & score & tf & imp & est & keys &
                 Hreq & _ & _ & Htf & _ & _ & _ & ->).
  cbn [prediction_dict PredictionResult.required_gpa PredictionResult.current_gpa
       PredictionResult.required_excellence_score
       PredictionResult.current_excellence_score PredictionResult.gap
       PredictionResult.probability].
  set (ce := default 0 (ScoreDict.get_excellence_score score)). clearbody ce.
  intros Hgpa Hscore.
  destruct (requirement_facts _ _ Hreq) as (Hg & Hs & Hwg & Hwe & Hsum).
  destruct (analyze_returns w student_id) as (tf' & Htf' & Htf0 & Htf1).
  rewrite Htf in Htf'. injection Htf' as <-.
  split; [minmax_lra|].
  assert (Hp : 70 <= probability_of req (current_gpa sd) ce tf /\
               probability_of req (current_gpa sd) ce tf <= 95).
  { unfold probability_of, gpa_factor_of.
    destruct (Qlt_le_dec 0 (gpa_min req)); [|lra].
    assert (Hgf : 1 <= current_gpa sd / gpa_min req)
      by (apply Qle_shift_div_l; lra).
    assert (Hef : 1 <= ce / excellence_score_min req)
      by (apply Qle_shift_div_l; lra).
    set (gq := current_gpa sd / gpa_min req) in *.
    set (eq := ce / excellence_score_min req) in *. clearbody gq eq.
    assert (Eg : Qmin gq 1 == 1) by minmax_lra.
    assert (Ee : Qmin eq 1 == 1) by minmax_lra.
    assert (Eb : (Qmin gq 1 * weight_gpa req + Qmin eq 1 * weight_excellence req)
                 * 100 * ((7 # 10) + tf * (3 # 10))
                 == 100 * ((7 # 10) + tf * (3 # 10))).
    { rewrite Eg, Ee.
      transitivity ((weight_gpa req + weight_excellence req)
                    * (100 * ((7 # 10) + tf * (3 # 10)))); [ring|].
      rewrite Hsum. ring. }
    set (adjusted := _ * 100 * _) in *. clearbody adjusted. minmax_lra. }
  destruct Hp as [Hlo Hhi]. split.
  - change 70 with (inject_Z 70). apply round_ge. exact Hlo.
  - change 95 with (inject_Z 95). apply round_le. exact Hhi.
Qed.

Lemma thresholds_met_probability_witness :
  exists r,
    predict_distinction_probability MoreExamples.honors_world 0%Z "s-2" "Dean_List"
      = Returned (PredictionDict.Prediction r) /\
    PredictionResult.gap r == 0 /\
    70 <= PredictionResult.probability r /\ PredictionResult.probability r <= 95.
Proof.
  eexists. split; [vm_compute; reflexivity|].
  match goal with
  | |- PredictionResult.gap ?r == 0 /\ _ =>
      apply (thresholds_met_probability MoreExamples.honors_world 0%Z "s-2"
               "Dean_List" r)
  end.
  - vm_compute. reflexivity.
  - intro H. discriminate H.
  - intro H. discriminate H.
Defined.

(** X12: the trajectory adjustment: with a non-negative grade point average
    and score, the probability does not decrease when the trajectory factor
    increases, and never exceeds the probability computed without adjustment
    (trajectory factor 1). *)
Theorem probability_rises_with_trajectory (distinction : string)
    (requirement : DistinctionRequirement) (gpa score tf tf' : Q) :
  distinction_requirements !! distinction = Some requirement ->
  0 <= gpa -> 0 <= score -> 0 <= tf -> tf <= tf' -> tf' <= 1 ->
  probability_of requirement gpa score tf
    <= probability_of requirement gpa score tf' /\
  probability_of requirement gpa score tf'
    <= probability_of requirement gpa score 1.
Proof.
  intros Hreq Hgpa Hscore Htf Hle Htf'.
  destruct (requirement_facts _ _ Hreq) as (Hg & Hs & Hwg & Hwe & _).
  unfold probability_of.
  assert (Hgf : 0 <= gpa_factor_of requirement gpa).
  { unfold gpa_factor_of. destruct (Qlt_le_dec 0 (gpa_min requirement)); [|lra].
    apply Q.min_glb; [|lra]. apply Qle_shift_div_l; lra. }
  assert (Hef : 0 <= Qmin (score / excellence_score_min requirement) 1).
  { apply Q.min_glb; [|lra]. apply Qle_shift_div_l; lra. }
  set (gf := gpa_factor_of _ _) in *. set (ef := Qmin (_ / _) 1) in *.
  clearbody gf ef.
  assert (Hbase : 0 <= (gf * weight_gpa requirement
                        + ef * weight_excellence requirement) * 100).
  { pose proof (Qmult_le_0_compat _ _ Hgf Hwg).
    pose proof (Qmult_le_0_compat _ _ Hef Hwe). lra. }
  set (base := (_ + _) * 100) in *. clearbody base.
  assert (base * ((7 # 10) + tf * (3 # 10)) <= base * ((7 # 10) + tf' * (3 # 10)))
    by nra.
  assert (base * ((7 # 10) + tf' * (3 # 10)) <= base * ((7 # 10) + 1 * (3 # 10)))
    by nra.
  split; minmax_lra.
Qed.

Lemma probability_rises_with_trajectory_witness :
  exists requirement,
    distinction_requirements !! "Dean_List"%string = Some requirement /\
    probability_of requirement 3 60 (1 # 4)
      <= probability_of requirement 3 60 (3 # 4).
Proof.
  eexists. split; [vm_compute; reflexivity|].
  match goal with
  | |- probability_of ?req _ _ _ <= _ =>
      apply (probability_rises_with_trajectory "Dean_List" req 3 60 (1 # 4) (3 # 4))
  end; try (intro H; discriminate H).
  vm_compute. reflexivity.
Defined.

End PredictionProperties.

(** ** The trajectory factor on particular histories *)

Section TrajectoryProperties.

Import Sums ExcellenceEngine.

(** X13: the trajectory analysis never raises and always returns a value of
    [0, 1]; when the query raises, it returns exactly 0.5. *)
Theorem trajectory_never_fails (w : World) (student_id : string) :
  (exists m, _analyze_improvement_trajectory w student_id = Returned m /\
             0 <= m /\ m <= 1) /\
  (forall e,
     _analyze_improvement_trajectory (with_trajectory (Raised e) w) student_id
     = Returned (1 # 2)).
Proof.
  split; [apply analyze_returns|]. intros e. reflexivity.
Qed.

(** The fitted slope on two points or more, as a quotient of sums. *)
Lemma fitted_slope (scores : list Q) :
  (2 <= length scores)%nat ->
  let x := arange_from 0 (length scores) in
  0 < cross_moment x x /\
  fst (Np.polyfit1 (Np.arange (length scores)) scores)
  == cross_moment x scores / cross_moment x x.
Proof.
  intros Hn x.
  pose proof (arange_variance_positive (length scores) Hn) as Hd.
  split; [exact Hd|].
  rewrite (polyfit1_is_ols_slope scores Hn), ols_slope_indexed. reflexivity.
Qed.

Lemma Qsum_affine (a s : Q) (x y : list Q) :
  Forall2 (fun xi yi => yi == a + s * xi) x y ->
  Np.Qsum y == count x * a + s * Np.Qsum x /\
  dot x y == a * Np.Qsum x + s * dot x x.
Proof.
  induction 1 as [|xi yi x y Hxy _ [IH1 IH2]].
  - unfold dot, count. simpl. split; ring.
  - rewrite count_cons. unfold dot in *. simpl. rewrite IH1, IH2, Hxy.
    split; ring.
Qed.

Lemma cross_moment_affine (a s : Q) (x y : list Q) :
  Forall2 (fun xi yi => yi == a + s * xi) x y ->
  cross_moment x y == s * cross_moment x x.
Proof.
  intros H. destruct (Qsum_affine a s x y H) as [H1 H2].
  unfold cross_moment. rewrite H1, H2. ring.
Qed.

Lemma cross_moment_shift (c : Q) (x y y' : list Q) :
  length x = length y ->
  Forall2 (fun yi yi' => yi' == yi + c) y y' ->
  cross_moment x y' == cross_moment x y.
Proof.
  intros Hlen H.
  assert (Hs : Np.Qsum y' == Np.Qsum y + count x * c /\
               dot x y' == dot x y + c * Np.Qsum x).
  { revert x Hlen.
    induction H as [|yi yi' y y' Hy _ IH]; intros [|xi x] Hlen; try discriminate.
    - unfold dot, count. simpl. split; ring.
    - injection Hlen as Hlen. destruct (IH x Hlen) as [IH1 IH2].
      rewrite count_cons. unfold dot in *. simpl. rewrite IH1, IH2, Hy.
      split; ring. }
  destruct Hs as [H1 H2]. unfold cross_moment. rewrite H1, H2. ring.
Qed.

Lemma linear_scores_affine (start step : Q) (n : nat) :
  Forall2 (fun xi yi => yi == start + step * xi)
          (arange_from 0 n) (linear_scores start step n).
Proof.
  unfold arange_from, linear_scores. generalize 0%nat.
  induction n as [|n IH]; intros i; simpl; constructor; [reflexivity|apply IH].
Qed.

Lemma affine_up_to_Qeq (a s : Q) (x l y : list Q) :
  Forall2 (fun xi li => li == a + s * xi) x l ->
  Forall2 Qeq y l ->
  Forall2 (fun xi yi => yi == a + s * xi) x y.
Proof.
  intros H. revert y.
  induction H as [|xi li x l Hxl _ IH]; intros y Hy; inversion Hy; subst.
  - constructor.
  - constructor; [|now apply IH].
    match goal with E : _ == li |- _ => rewrite E end. exact Hxl.
Qed.

Lemma linear_scores_length (start step : Q) (n : nat) :
  length (linear_scores start step n) = n.
Proof. unfold linear_scores. now rewrite length_map, length_seq. Qed.

(** X14: on a history of two points or more that moves by the same step from
    one point to the next, the fitted slope is that step: the momentum is
    clamp(0.5 + step/20, 0, 1).  In particular a constant history gives 0.5,
    a step of 10 or more gives 1 and a step of -10 or less gives 0. *)
Theorem linear_history_momentum (w : World) (student_id : string)
    (rows : list TrajectoryRow.t) (start step : Q) :
  (2 <= length rows)%nat ->
  Forall2 Qeq (chronological rows) (linear_scores start step (length rows)) ->
  exists m,
    _analyze_improvement_trajectory (with_trajectory (Returned rows) w)
      student_id = Returned m /\
    m == Qmax 0 (Qmin 1 ((1 # 2) + step / 20)) /\
    (step == 0 -> m == 1 # 2) /\ (10 <= step -> m == 1) /\ (step <= -10 -> m == 0).
Proof.
  intros Hn Hlin. exists (trajectory_of_scores (chronological rows)).
  split; [apply analyze_rows|].
  assert (Hlen : (2 <= length (chronological rows))%nat)
    by now rewrite chronological_length.
  assert (Hm : trajectory_of_scores (chronological rows)
               == Qmax 0 (Qmin 1 ((1 # 2) + step / 20))).
  { unfold trajectory_of_scores.
    destruct (length (chronological rows) <? 2)%nat eqn:E;
      [apply Nat.ltb_lt in E; lia|].
    destruct (fitted_slope (chronological rows) Hlen) as [Hd Hslope].
    rewrite chronological_length in Hd, Hslope.
    assert (Hc : cross_moment (arange_from 0 (length rows)) (chronological rows)
                 == step * cross_moment (arange_from 0 (length rows))
                                        (arange_from 0 (length rows))).
    { apply (cross_moment_affine start).
      apply (affine_up_to_Qeq start step _ _ _
               (linear_scores_affine start step (length rows)) Hlin). }
    assert (Hs : fst (Np.polyfit1 (Np.arange (length (chronological rows)))
                        (chronological rows)) == step).
    { rewrite chronological_length in *. rewrite Hslope, Hc. field. lra. }
    set (fitted := fst _) in *. clearbody fitted. minmax_lra. }
  split; [exact Hm|].
  set (m := trajectory_of_scores _) in *. clearbody m.
  repeat split; intros Hstep; minmax_lra.
Qed.

Lemma linear_history_momentum_witness :
  exists m,
    _analyze_improvement_trajectory
      (with_trajectory (Returned Examples.rising) Examples.quiet) "s-1"
    = Returned m /\
    m == 3 # 4.
Proof.
  destruct (linear_history_momentum Examples.quiet "s-1" Examples.rising 60 5)
    as (m & Hm & Hval & _); [simpl; lia|repeat constructor|].
  exists m. split; [exact Hm|]. rewrite Hval. reflexivity.
Defined.

(** X15: adding the same number to every score of a history does not change
    the momentum. *)
Theorem momentum_ignores_level (w : World) (student_id : string)
    (rows rows' : list TrajectoryRow.t) (c : Q) :
  Forall2 (fun y y' => y' == y + c) (chronological rows) (chronological rows') ->
  exists m m',
    _analyze_improvement_trajectory (with_trajectory (Returned rows) w)
      student_id = Returned m /\
    _analyze_improvement_trajectory (with_trajectory (Returned rows') w)
      student_id = Returned m' /\
    m == m'.
Proof.
  intros H.
  exists (trajectory_of_scores (chronological rows)),
         (trajectory_of_scores (chronological rows')).
  split; [apply analyze_rows|]. split; [apply analyze_rows|].
  pose proof (Forall2_length _ _ _ H) as Hlen.
  unfold trajectory_of_scores. rewrite <- Hlen.
  destruct (length (chronological rows) <? 2)%nat eqn:E; [reflexivity|].
  apply Nat.ltb_ge in E.
  destruct (fitted_slope (chronological rows) E) as [Hd Hs].
  assert (E' : (2 <= length (chronological rows'))%nat) by lia.
  destruct (fitted_slope (chronological rows') E') as [_ Hs'].
  rewrite <- Hlen in Hs'.
  rewrite (cross_moment_shift c _ (chronological rows) (chronological rows')) in Hs';
    [|apply arange_from_length|exact H].
  rewrite <- Hs in Hs'.
  set (fitted := fst (Np.polyfit1 _ (chronological rows))) in *.
  set (fitted' := fst (Np.polyfit1 _ (chronological rows'))) in *.
  clearbody fitted fitted'. minmax_lra.
Qed.

Lemma momentum_ignores_level_witness :
  exists m m',
    _analyze_improvement_trajectory
      (with_trajectory (Returned Examples.rising) Examples.quiet) "s-1"
    = Returned m /\
    _analyze_improvement_trajectory
      (with_trajectory (Returned MoreExamples.rising_higher) Examples.quiet) "s-1"
    = Returned m' /\
    m == m'.
Proof.
  apply (momentum_ignores_level Examples.quiet "s-1" Examples.rising
           MoreExamples.rising_higher 10).
  repeat constructor.
Defined.

End TrajectoryProperties.

(** ** The cache on a server that answers *)

Section CacheProperties.

Import PredictionService.

Variable dumps : PredictionDict.t -> Outcome string.
Variable loads : string -> Outcome PredictionDict.t.

(** X16: on a server that answers, a prediction that has just been cached
    with a positive time to live is what the next cache read for the same
    student and distinction returns (the read coming before the entry
    expires), provided the JSON codec gives the prediction back from its
    encoding. *)
Theorem cache_round_trip (self : t) (client : Redis.t)
    (student_id distinction : string) (prediction : PredictionDict.t) (ttl : Z)
    (payload : string) :
  cache_enabled self = true ->
  redis_client self = Some client ->
  Redis.reachable client = true ->
  (0 < ttl)%Z ->
  dumps prediction = Returned payload ->
  payload <> ""%string ->
  loads payload = Returned prediction ->
  get_cached_prediction loads
    (snd (cache_prediction dumps self student_id distinction prediction ttl))
    student_id distinction
  = Returned (Some prediction).
Proof.
  intros Hen Hcl Hre Httl Hd Hne Hl.
  unfold cache_prediction, store_attempt, get_redis_client, Redis.setex.
  unfold mbind, outcome_bind, Py.bind.
  rewrite Hen, Hcl, Hd, Hre.
  destruct (Z.leb_spec ttl 0) as [Hle|_]; [lia|]. cbn [negb snd].
  unfold get_cached_prediction, lookup_attempt, get_redis_client, Redis.get.
  unfold mbind, outcome_bind, Py.bind, Py.try_except.
  cbn [cache_enabled redis_client Redis.reachable Redis.entries negb].
  rewrite lookup_insert_eq. cbn [fmap option_fmap option_map snd].
  destruct (String.eqb payload "") eqn:E; [apply String.eqb_eq in E; contradiction|].
  cbn [negb]. rewrite Hl. reflexivity.
Qed.

(** With a time to live that is not positive the server rejects the write,
    [cache_prediction] swallows the error, and the service is left as it
    was: nothing is stored. *)
Lemma nonpositive_ttl_stores_nothing (self : t)
    (student_id distinction : string) (prediction : PredictionDict.t) (ttl : Z) :
  (ttl <= 0)%Z ->
  cache_prediction dumps self student_id distinction prediction ttl
  = (Returned tt, self).
Proof.
  intros Httl. unfold cache_prediction.
  destruct (cache_enabled self); cbn [negb]; [|reflexivity].
  unfold store_attempt, get_redis_client, Redis.setex.
  unfold mbind, outcome_bind, Py.bind.
  destruct (redis_client self) as [client|]; [|reflexivity].
  destruct (dumps prediction) as [payload|]; [|reflexivity].
  destruct (Redis.reachable client); [|reflexivity].
  destruct (Z.leb_spec ttl 0) as [_|Hlt]; [reflexivity|lia].
Qed.

(** X17: caching a prediction under one key leaves the cache reads of every
    other key as they were. *)
Theorem cache_write_leaves_other_keys (self : t)
    (student_id distinction other_student other_distinction : string)
    (prediction : PredictionDict.t) (ttl : Z) :
  cache_key other_student other_distinction <> cache_key student_id distinction ->
  get_cached_prediction loads
    (snd (cache_prediction dumps self student_id distinction prediction ttl))
    other_student other_distinction
  = get_cached_prediction loads self other_student other_distinction.
Proof.
  intros Hkey. unfold cache_prediction.
  destruct (cache_enabled self) eqn:Hen; cbn [negb]; [|reflexivity].
  unfold store_attempt, get_redis_client, Redis.setex.
  unfold mbind, outcome_bind, Py.bind.
  destruct (redis_client self) as [client|] eqn:Hcl; [|reflexivity].
  destruct (dumps prediction) as [payload|]; [|reflexivity].
  destruct (Redis.reachable client) eqn:Hre; [|reflexivity].
  destruct (ttl <=? 0)%Z; [reflexivity|].
  cbn [snd].
  unfold get_cached_prediction, lookup_attempt, get_redis_client, Redis.get.
  unfold mbind, outcome_bind, Py.bind.
  cbn [cache_enabled redis_client Redis.reachable Redis.entries].
  rewrite Hen, Hcl, Hre. cbn [negb].
  rewrite lookup_insert_ne by (intros E; apply Hkey; symmetry; exact E).
  reflexivity.
Qed.

End CacheProperties.

Lemma cache_round_trip_witness :
  let dumps := fun _ : PredictionDict.t => Returned "{}"%string in
  let loads := fun _ : string => Returned (PredictionDict.Error "Student data not found") in
  let self := {| PredictionService.cache_enabled := true;
                 PredictionService.redis_client :=
                   Some {| Redis.reachable := true; Redis.entries := ∅ |} |} in
  PredictionService.get_cached_prediction loads
    (snd (PredictionService.cache_prediction dumps self "s-1" "Dean_List"
            (PredictionDict.Error "Student data not found") 600))
    "s-1" "Dean_List"
  = Returned (Some (PredictionDict.Error "Student data not found")).
Proof.
  intros dumps loads self.
  apply (cache_round_trip dumps loads self
           {| Redis.reachable := true; Redis.entries := ∅ |} "s-1" "Dean_List"
           (PredictionDict.Error "Student data not found") 600 "{}");
    try reflexivity.
  intro H. discriminate H.
Defined.

(** The same write with a time to live of zero: the next read finds nothing. *)
Lemma zero_ttl_read_misses :
  let dumps := fun _ : PredictionDict.t => Returned "{}"%string in
  let loads := fun _ : string => Returned (PredictionDict.Error "Student data not found") in
  let self := {| PredictionService.cache_enabled := true;
                 PredictionService.redis_client :=
                   Some {| Redis.reachable := true; Redis.entries := ∅ |} |} in
  PredictionService.get_cached_prediction loads
    (snd (PredictionService.cache_prediction dumps self "s-1" "Dean_List"
            (PredictionDict.Error "Student data not found") 0))
    "s-1" "Dean_List"
  = Returned None.
Proof. reflexivity. Qed.

Lemma cache_write_leaves_other_keys_witness :
  PredictionService.get_cached_prediction Examples.failing_loads
    (snd (PredictionService.cache_prediction Examples.failing_dumps
            Examples.redis_down "s-1" "Dean_List"
            (PredictionDict.Error "Student data not found") 600))
    "s-2" "Dean_List"
  = PredictionService.get_cached_prediction Examples.failing_loads
      Examples.redis_down "s-2" "Dean_List".
Proof.
  apply (cache_write_leaves_other_keys Examples.failing_dumps Examples.failing_loads).
  intro H. discriminate H.
Defined.

(** ** Cache keys *)

Section CacheKeys.

Import PredictionService.

Lemma append_colon_inj (s1 s2 d1 d2 : string) :
  contains_colon s1 = false -> contains_colon s2 = false ->
  (s1 ++ ":" ++ d1 = s2 ++ ":" ++ d2)%string ->
  s1 = s2 /\ d1 = d2.
Proof.
  revert s2. induction s1 as [|c1 s1 IH]; intros [|c2 s2] H1 H2 E;
    cbn [String.append contains_colon] in *.
  - injection E as E. split; [reflexivity|exact E].
  - injection E as Ec _. subst c2. discriminate H2.
  - injection E as Ec _. subst c1. discriminate H1.
  - injection E as Ec E. subst c2.
    apply orb_false_iff in H1, H2. destruct H1 as [_ H1], H2 as [_ H2].
    destruct (IH s2 H1 H2 E) as [-> ->]. split; reflexivity.
Qed.

(** X18: for student identifiers that contain no colon, the cache key tells
    the student and the distinction: two pairs with the same key are the same
    pair. *)
Theorem cache_key_injective (student_id student_id' distinction distinction' : string) :
  contains_colon student_id = false -> contains_colon student_id' = false ->
  cache_key student_id distinction = cache_key student_id' distinction' ->
  student_id = student_id' /\ distinction = distinction'.
Proof.
  intros H1 H2 E. unfold cache_key in E.
  cbn [String.append] in E. injection E as E.
  exact (append_colon_inj _ _ _ _ H1 H2 E).
Qed.

(** The key of ["s-1"] and ["Dean_List"] tells both. *)
Lemma cache_key_injective_witness :
  "s-1"%string = "s-1"%string /\ "Dean_List"%string = "Dean_List"%string.
Proof.
  apply (cache_key_injective "s-1" "s-1" "Dean_List" "Dean_List"); reflexivity.
Defined.

(** Without the assumption the keys collide. *)
Lemma cache_key_collision :
  cache_key "a:b" "c" = cache_key "a" "b:c".
Proof. reflexivity. Qed.

End CacheKeys.

(** ** A service without a cache, and the health check *)

Section Health.

Import PredictionService.

Variable dumps : PredictionDict.t -> Outcome string.
Variable loads : string -> Outcome PredictionDict.t.

(** X19: a service built without a Redis URL, or for which [redis.from_url]
    raises, never caches: every cache read returns [None], every cache write
    returns and leaves the service as it was, and [test_cache] answers
    [False]. *)
Theorem service_without_redis_never_caches (redis_url : option string)
    (from_url : string -> Outcome Redis.t)
    (student_id distinction : string) (prediction : PredictionDict.t) (ttl : Z) :
  redis_url = None \/
  (exists url e, redis_url = Some url /\ from_url url = Raised e) ->
  let self := __init__ redis_url from_url in
  get_cached_prediction loads self student_id distinction = Returned None /\
  cache_prediction dumps self student_id distinction prediction ttl
    = (Returned tt, self) /\
  test_cache self = false.
Proof.
  intros H.
  assert (E : __init__ redis_url from_url
              = {| cache_enabled := false; redis_client := None |}).
  { unfold __init__. destruct H as [->|(url & e & -> & ->)]; reflexivity. }
  cbv zeta. rewrite E. repeat split.
Qed.

(** X20: the health check answers 200 with status 'healthy' whatever the
    state of the database and of the cache: a probe that fails only turns the
    'database' or 'cache' entry into 'disconnected'. *)
Theorem health_check_always_healthy (select_one : Outcome Z) (service : t) :
  exists database cache,
    App.health_check select_one service
    = Returned (App.Healthy database cache, 200%Z) /\
    (database = true <-> select_one = Returned 1%Z) /\
    (cache = true <->
     cache_enabled service = true /\
     exists client, redis_client service = Some client /\
                    Redis.reachable client = true).
Proof.
  unfold App.health_check, App.test_connection.
  unfold mbind, outcome_bind, Py.bind, Py.try_except.
  destruct select_one as [value|e].
  - exists (value =? 1)%Z, (test_cache service). split; [reflexivity|]. split.
    + rewrite Z.eqb_eq. split; [intros ->; reflexivity|intros [= ->]; reflexivity].
    + unfold test_cache. destruct (cache_enabled service); cbn [negb].
      * destruct (redis_client service) as [client|].
        -- split; [intros H; split; [reflexivity|]; exists client; now split|].
           intros [_ (client' & [= <-] & H)]. exact H.
        -- split; [discriminate|]. intros [_ (client & Hc & _)]. discriminate Hc.
      * split; [discriminate|]. intros [H _]. discriminate H.
  - exists false, (test_cache service). split; [reflexivity|]. split.
    + split; discriminate.
    + unfold test_cache. destruct (cache_enabled service); cbn [negb].
      * destruct (redis_client service) as [client|].
        -- split; [intros H; split; [reflexivity|]; exists client; now split|].
           intros [_ (client' & [= <-] & H)]. exact H.
        -- split; [discriminate|]. intros [_ (client & Hc & _)]. discriminate Hc.
      * split; [discriminate|]. intros [H _]. discriminate H.
Qed.

End Health.

Lemma service_without_redis_never_caches_witness :
  let self := PredictionService.__init__ None (fun _ => Raised "unused") in
  PredictionService.get_cached_prediction Examples.failing_loads self
    "s-1" "Dean_List" = Returned None.
Proof.
  intros self.
  destruct (service_without_redis_never_caches Examples.failing_dumps
              Examples.failing_loads None (fun _ => Raised "unused")
              "s-1" "Dean_List" (PredictionDict.Error "Student data not found") 600)
    as [H _]; [left; reflexivity|exact H].
Defined.

(** ** The excellence routes *)

Section Routes.

Import ExcellenceEngine ExcellenceApi.

(** The score calculation never raises: it always returns a dict. *)
Lemma calculate_returns (w : World) (now : datetime) (student_id : string)
    (student_data : option StudentData) :
  exists d, calculate_excellence_score w now student_id student_data = Returned d.
Proof.
  destruct student_data as [sd|].
  - rewrite calculate_with_data.
    destruct (_update_excellence_score_in_db w student_id _ _); eauto.
  - unfold calculate_excellence_score, mbind, outcome_bind, Py.bind, Py.try_except.
    destruct (_get_comprehensive_student_data w student_id) as [[sd|]|e]; eauto.
    destruct (_update_excellence_score_in_db w student_id _ _); eauto.
Qed.

(** X21: the profile route never raises and answers 200, 400 or 500.  It
    answers 400, with the engine's dict as body, exactly when the engine
    returns an error dict (no student data, or a persistence write that
    raised), and then does not depend on the chart query; it answers 500
    exactly when the engine returns a score and the chart query raises. *)
Theorem profile_route_status (w : World) (now : datetime)
    (trajectory_query : Outcome (list TrajectoryRow.t)) (student_id : string) :
  exists body status,
    get_excellence_profile w now trajectory_query student_id
      = Returned (body, status) /\
    (status = 200 \/ status = 400 \/ status = 500)%Z /\
    (status = 400%Z <->
     exists msg,
       calculate_excellence_score w now student_id None
         = Returned (ScoreDict.Error msg) /\
       body = Score (ScoreDict.Error msg)) /\
    (status = 500%Z <->
     exists e s f m t,
       trajectory_query = Raised e /\ body = Error e /\
       calculate_excellence_score w now student_id None
         = Returned (ScoreDict.Score s f m t)).
Proof.
  unfold get_excellence_profile, mbind, outcome_bind, Py.bind, Py.try_except.
  destruct (calculate_returns w now student_id None) as [d Hd]. rewrite Hd.
  destruct d as [s f m t|msg].
  - destruct trajectory_query as [rows|e].
    + eexists. exists 200%Z. split; [reflexivity|]. split; [tauto|].
      split; (split; [discriminate|]).
      * intros (msg & [=] & _).
      * intros (e & _ & _ & _ & _ & [=] & _).
    + exists (Error e), 500%Z. split; [reflexivity|]. split; [tauto|]. split.
      * split; [discriminate|]. intros (msg & [=] & _).
      * split; [|reflexivity]. intros _. exists e, s, f, m, t.
        split; [reflexivity|]. split; reflexivity.
  - exists (Score (ScoreDict.Error msg)), 400%Z. split; [reflexivity|].
    split; [tauto|]. split.
    + split; [|reflexivity]. intros _. exists msg. split; reflexivity.
    + split; [discriminate|]. intros (e & s & f & m & t & _ & _ & [=]).
Qed.

(** X22: the update route answers 200 with ['success': True] whenever a
    non-empty student id is posted, whatever the engine returns: an error dict
    of the engine, such as 'Student data not found', travels as
    ['updated_profile'].  A missing or empty student id gives 400 and a body
    that is not a dict gives 500. *)
Theorem update_route_reports_success (w : World) (now : datetime) :
  (forall student_id : string,
     student_id <> ""%string ->
     exists d,
       calculate_excellence_score w now student_id None = Returned d /\
       update_excellence_profile w now
         (Returned (Some {| ExcellenceApi.student_id := Some student_id |}))
       = Returned (Updated d, 200%Z)) /\
  (forall student_id : string,
     student_id <> ""%string ->
     update_excellence_profile (with_student_data (Returned None) w) now
       (Returned (Some {| ExcellenceApi.student_id := Some student_id |}))
     = Returned (Updated (ScoreDict.Error "Student data not found"), 200%Z)) /\
  update_excellence_profile w now
    (Returned (Some {| ExcellenceApi.student_id := None |}))
    = Returned (Error "student_id is required", 400%Z) /\
  update_excellence_profile w now
    (Returned (Some {| ExcellenceApi.student_id := Some ""%string |}))
    = Returned (Error "student_id is required", 400%Z) /\
  update_excellence_profile w now (Returned None)
    = Returned (Error "'NoneType' object has no attribute 'get'", 500%Z) /\
  (forall e, update_excellence_profile w now (Raised e)
             = Returned (Error e, 500%Z)).
Proof.
  assert (Hgen : forall w' (student_id : string),
     student_id <> ""%string ->
     exists d,
       calculate_excellence_score w' now student_id None = Returned d /\
       update_excellence_profile w' now
         (Returned (Some {| ExcellenceApi.student_id := Some student_id |}))
       = Returned (Updated d, 200%Z)).
  { intros w' student_id Hne.
    destruct (calculate_returns w' now student_id None) as [d Hd].
    exists d. split; [exact Hd|].
    unfold update_excellence_profile, mbind, outcome_bind, Py.bind, Py.try_except.
    cbn [ExcellenceApi.student_id].
    destruct student_id as [|c rest]; [contradiction|].
    rewrite Hd. reflexivity. }
  split; [exact (Hgen w)|]. split.
  - intros student_id Hne.
    destruct (Hgen (with_student_data (Returned None) w) student_id Hne)
      as (d & Hd & Hup).
    rewrite Hup. unfold calculate_excellence_score in Hd.
    cbn in Hd. injection Hd as <-. reflexivity.
  - repeat split.
Qed.

Lemma update_route_reports_success_witness :
  update_excellence_profile (with_student_data (Returned None) Examples.quiet) 0%Z
    (Returned (Some {| ExcellenceApi.student_id := Some "s-404"%string |}))
  = Returned (Updated (ScoreDict.Error "Student data not found"), 200%Z).
Proof.
  destruct (update_route_reports_success Examples.quiet 0%Z) as (_ & H & _).
  apply H. intro E. discriminate E.
Defined.

End Routes.

(** ** The mentorship service *)

Section Mentorship.

Import ExcellenceEngine ScholarMentorshipService.

Lemma sophistication_multiplier_cases (level : string) :
  let m := default 1 (sophistication_multipliers !! level) in
  m == 1 \/ m == 12 # 10 \/ m == 15 # 10 \/ m == 2.
Proof.
  unfold sophistication_multipliers. simpl.
  repeat (rewrite lookup_insert; case_decide; [simpl; intuition reflexivity|]).
  rewrite lookup_empty. simpl. left. reflexivity.
Qed.

Lemma sophistication_impact_nonneg (level : string) :
  0 <= default 1 (sophistication_impact !! level).
Proof.
  unfold sophistication_impact. simpl.
  repeat (rewrite lookup_insert; case_decide; [simpl; lra|]).
  rewrite lookup_empty. simpl. lra.
Qed.

(** The clamp alone keeps the quality score of a session at 1 or above. *)
Lemma session_quality_at_least_one (query : string)
    (mentorship_response : MentorshipResponse) (query_sophistication : string) :
  exists quality,
    _calculate_session_quality query mentorship_response query_sophistication
      = Returned quality /\
    1 <= quality.
Proof.
  unfold _calculate_session_quality, Py.try_except.
  eexists. split; [reflexivity|].
  match goal with
  | |- 1 <= Qmin 5 (Qmax 1 ?s) => generalize s
  end.
  intros score. minmax_lra.
Qed.

(** X23: the quality score of a mentorship session always lies in [2.8, 5]:
    the floor of 1.0 applied by the code is never reached. *)
Theorem session_quality_range (query : string)
    (mentorship_response : MentorshipResponse) (query_sophistication : string) :
  exists quality,
    _calculate_session_quality query mentorship_response query_sophistication
      = Returned quality /\
    28 # 10 <= quality /\ quality <= 5.
Proof.
  unfold _calculate_session_quality, Py.try_except.
  eexists. split; [reflexivity|].
  pose proof (sophistication_multiplier_cases query_sophistication) as Hm.
  cbv zeta in Hm.
  set (m := default 1 _) in *. clearbody m.
  assert (Hf : 0 <= inject_Z (Z.of_nat (length (frameworks mentorship_response)))).
  { change 0 with (inject_Z 0). rewrite <- Zle_Qle. lia. }
  assert (Hme : 0 <= inject_Z (Z.of_nat (length (methodologies mentorship_response)))).
  { change 0 with (inject_Z 0). rewrite <- Zle_Qle. lia. }
  set (nf := inject_Z (Z.of_nat (length (frameworks _)))) in *.
  set (nm := inject_Z (Z.of_nat (length (methodologies _)))) in *.
  clearbody nf nm.
  destruct (500 <? _)%nat; destruct (800 <? _)%nat;
    destruct (Qlt_le_dec 3000 _).
  all: minmax_lra.
Qed.

Lemma Qsum_at_least (c : Q) (xs : list Q) :
  Forall (fun x => c <= x) xs -> Sums.count xs * c <= Np.Qsum xs.
Proof.
  induction 1 as [|x xs Hx _ IH].
  - unfold Sums.count, Np.Qsum. cbn [length fold_right].
    change (inject_Z (Z.of_nat 0)) with 0. lra.
  - rewrite count_cons. unfold Np.Qsum in *. cbn [fold_right]. lra.
Qed.

(** X24: for a student with at least one mentorship session, all of whose
    quality scores were computed by [_calculate_session_quality], the session
    bonus of the research engagement factor is always the full 10 points. *)
Theorem session_bonus_is_always_full (student_data : StudentData) :
  mentorship_sessions student_data <> [] ->
  Forall (fun s => exists query response level quality,
            _calculate_session_quality query response level = Returned quality /\
            quality == session_quality_score s)
         (mentorship_sessions student_data) ->
  _calculate_research_engagement student_data ==
  Qmin (inject_Z (20 + Z.min (research_projects student_data * 15) 40
                  + Z.min (publications student_data * 20
                           + presentations student_data * 10) 30) + 10) 100.
Proof.
  intros Hne Hall. unfold _calculate_research_engagement.
  set (base := (20 + _ + _)%Z). clearbody base.
  destruct (mentorship_sessions student_data) as [|s l] eqn:E; [contradiction|].
  rewrite <- E in *. clear E s l.
  assert (Hq : Forall (fun x => 1 <= x)
                 (map session_quality_score (mentorship_sessions student_data))).
  { rewrite Forall_map. revert Hall. apply List.Forall_impl.
    intros s (query & response & level & quality & Hs & Heq).
    destruct (session_quality_at_least_one query response level) as (q & Hq & Hlo).
    rewrite Hs in Hq. injection Hq as <-. rewrite <- Heq. exact Hlo. }
  apply Qsum_at_least in Hq.
  assert (Hn : 0 < inject_Z (Z.of_nat (length (mentorship_sessions student_data)))).
  { change 0 with (inject_Z 0). rewrite <- Zlt_Qlt.
    destruct (mentorship_sessions student_data); [contradiction|simpl; lia]. }
  unfold Sums.count in Hq. rewrite length_map in Hq.
  assert (Havg : 1 <= Py.sum (map session_quality_score
                                (mentorship_sessions student_data))
                      / inject_Z (Z.of_nat (length (mentorship_sessions student_data)))).
  { apply Qle_shift_div_l; [exact Hn|].
    unfold Py.sum. rewrite sum_acc.
    set (n := inject_Z _) in *. set (total := Np.Qsum _) in *.
    clearbody n total. nra. }
  set (avg := Py.sum _ / _) in *. clearbody avg.
  minmax_lra.
Qed.

Lemma session_bonus_is_always_full_witness :
  _calculate_research_engagement Examples.three_sessions == 30.
Proof.
  rewrite (session_bonus_is_always_full Examples.three_sessions).
  - reflexivity.
  - discriminate.
  - repeat constructor;
      exists "How does this framework apply?"%string,
             {| response := ""; frameworks := ["a"; "b"; "c"; "d"]%string;
                methodologies := []; response_time := 0 |},
             "intermediate"%string;
      eexists; (split; [vm_compute; reflexivity|reflexivity]).
Defined.

(** [_store_prediction_updates] swallows every failure. *)
Lemma store_prediction_updates_returns
    (execute_query : string -> ProbabilityUpdate -> Outcome unit)
    (predictions : gmap string ProbabilityUpdate) :
  _store_prediction_updates execute_query predictions = Returned tt.
Proof.
  unfold _store_prediction_updates, Py.try_except.
  destruct (foldr _ _ _) as [[]|e]; reflexivity.
Qed.

(** X25: an engagement never lowers a prediction and never raises it by more
    than a tenth of its distance to 100: for a session quality that is not
    negative, every current probability [p] of [0, 100] is updated to a value
    between [p] and [p + (100 - p) / 10], and the distinctions of the result
    are those of the current predictions. *)
Theorem engagement_update_is_bounded (query_sophistication : string)
    (session_quality : Q) (current_predictions : gmap string Q)
    (execute_query : string -> ProbabilityUpdate -> Outcome unit) :
  0 <= session_quality ->
  exists updates,
    _update_predictions_from_engagement query_sophistication session_quality
      (Returned current_predictions) execute_query = Returned updates /\
    dom updates = dom current_predictions /\
    forall distinction p,
      current_predictions !! distinction = Some p -> 0 <= p -> p <= 100 ->
      exists u,
        updates !! distinction = Some u /\
        previous u = p /\
        p <= updated u /\ updated u <= p + (100 - p) / 10 /\ updated u <= 100 /\
        increase u == updated u - p.
Proof.
  intros Hq.
  unfold _update_predictions_from_engagement, mbind, outcome_bind, Py.bind.
  rewrite store_prediction_updates_returns. cbn [Py.try_except].
  eexists. split; [reflexivity|]. split; [apply dom_fmap_L|].
  intros distinction p Hp Hp0 Hp100.
  rewrite lookup_fmap, Hp. cbn [fmap option_fmap option_map].
  eexists. split; [reflexivity|].
  unfold updated_prediction. cbn [previous updated increase].
  pose proof (sophistication_impact_nonneg query_sophistication) as Hi.
  set (impact := default 1 _) in *. clearbody impact.
  assert (Hinc : 0 <= impact * (session_quality / 4)).
  { apply Qmult_le_0_compat; [exact Hi|]. apply Qle_shift_div_l; lra. }
  set (inc := impact * (session_quality / 4)) in *. clearbody inc.
  split; [reflexivity|]. repeat split; minmax_lra.
Qed.

Lemma engagement_update_is_bounded_witness :
  exists updates,
    _update_predictions_from_engagement "scholar" 5
      (Returned {[ "Dean_List"%string := 60 ]}) (fun _ _ => Returned tt)
    = Returned updates /\
    dom updates = dom ({[ "Dean_List"%string := 60 ]} : gmap string Q).
Proof.
  destruct (engagement_update_is_bounded "scholar" 5
              {[ "Dean_List"%string := 60 ]} (fun _ _ => Returned tt))
    as (updates & H & Hdom & _); [intro E; discriminate E|].
  exists updates. split; assumption.
Defined.

(** X26: the gap analysis is only ever produced for a target distinction that
    is not in the requirement table, and then with the default target score
    of 80 and the target sophistication 'scholar': for the six distinctions of
    the table the function reads the requirement as if it were a dict, which
    raises, and returns "Gap analysis unavailable". *)
Theorem gap_analysis_only_for_unknown_targets (query : string)
    (student_profile : StudentProfile) (query_sophistication : string) :
  (is_Some (distinction_requirements !! target_distinction student_profile) ->
   _analyze_excellence_gap query student_profile query_sophistication
   = Returned Unavailable) /\
  (forall current target score gap level target_level level_gap areas,
     _analyze_excellence_gap query student_profile query_sophistication
     = Returned (Analysis current target score gap level target_level level_gap
                   areas) ->
     distinction_requirements !! target = None /\
     score = 80 /\ target_level = "scholar"%string /\
     gap == Qmax 0 (80 - excellence_score student_profile)).
Proof.
  unfold _analyze_excellence_gap, mbind, outcome_bind, Py.bind, Py.try_except.
  destruct (distinction_requirements !! target_distinction student_profile)
    as [req|] eqn:E; cbn [getitem_excellence_score_min].
  - split; [reflexivity|]. intros * H. discriminate H.
  - split; [intros [? H]; discriminate H|].
    intros current target score gap level target_level level_gap areas H.
    destruct (index_of query_sophistication sophistication_levels) as [i|];
      [|discriminate H].
    change (list_getitem sophistication_levels
              (Z.min (Z.of_nat (length sophistication_levels) - 1)
                 (Qnum (80 / 25) ÷ Z.pos (Qden (80 / 25)))))
      with (Returned "scholar"%string : Outcome string) in H.
    injection H as <- <- <- <- <- <- <- <-.
    repeat split; try assumption; reflexivity.
Qed.

Lemma gap_analysis_only_for_unknown_targets_witness :
  _analyze_excellence_gap "What is a paradigm?"
    {| excellence_score := 60; target_distinction := "Dean_List" |} "basic"
  = Returned Unavailable.
Proof.
  apply (gap_analysis_only_for_unknown_targets "What is a paradigm?"
           {| excellence_score := 60; target_distinction := "Dean_List" |} "basic").
  vm_compute. eexists. reflexivity.
Defined.

End Mentorship.
